(** * Tool-calling quickstart scripts: a shallow embedding

    The repository holds two scripts.  [examples/use_case_1/src/main.py] sends
    one chat-completion request and prints the answer.
    [examples/use_case_2/src/main.py] sends a request with a tool catalog,
    runs the tools the reply asks for, and sends one follow-up request.

    Both scripts are modelled as step machines over an explicit [World]:
    the environment variables, the SDK and its remote completion service,
    the JSON decoder, the clock and Python's [str] are what a run reads from
    outside the script.  A state of a machine holds the program point, the
    [messages] list (use case 2) and the chronological trace of what the run
    did: what it printed, which requests it sent, which local tool functions
    it entered.  An exception is a value that takes the run to the handler
    of the script's [try]; [sys.exit] halts the machine with its status.
    [print] is taken not to fail. *)

From Stdlib Require Import String Ascii List ZArith NArith Bool Lia DecimalString
  DecimalNat.
Import ListNotations.
Open Scope string_scope.
Set Warnings "-register-all".

(** ** Python values *)

(** What [json.loads] can return.  A number with a fraction or an exponent is
    a Python float; its value is not computed, the literal is kept. *)
Inductive json : Type :=
| JNull
| JBool (b : bool)
| JInt (z : Z)
| JFloat (literal : string)
| JStr (s : string)
| JArr (items : list json)
| JObj (members : list (string * json)).

(** [type(v).__name__] *)
Definition type_name (v : json) : string :=
  match v with
  | JNull => "NoneType"
  | JBool _ => "bool"
  | JInt _ => "int"
  | JFloat _ => "float"
  | JStr _ => "str"
  | JArr _ => "list"
  | JObj _ => "dict"
  end.

(** The exceptions a run can meet; all of them derive from [Exception]. *)
Inductive exn : Type :=
| JSONDecodeError                (* json.loads on text that is not JSON *)
| AttributeError (ty : string)   (* 'ty' object has no attribute 'get' *)
| IndexError                     (* choices[0] on an empty list *)
| LibraryError (msg : string).   (* whatever the SDK raises: a failed import,
                                    client or call *)

Inductive outcome (A : Type) : Type :=
| Returned (a : A)
| Raised (e : exn).
Arguments Returned {A} a.
Arguments Raised {A} e.

(** A dict as an association list in insertion order, keys unique. *)
Fixpoint dict_lookup (d : list (string * json)) (key : string) : option json :=
  match d with
  | [] => None
  | (k, v) :: rest => if String.eqb key k then Some v else dict_lookup rest key
  end.

Fixpoint dict_set (d : list (string * json)) (key : string) (v : json)
  : list (string * json) :=
  match d with
  | [] => [(key, v)]
  | (k, v0) :: rest =>
      if String.eqb key k then (k, v) :: rest else (k, v0) :: dict_set rest key v
  end.

(** [obj.get(key, default)]: the method exists on dicts only. *)
Definition py_get (obj : json) (key : string) (default : json) : outcome json :=
  match obj with
  | JObj d =>
      match dict_lookup d key with
      | Some v => Returned v
      | None => Returned default
      end
  | other => Raised (AttributeError (type_name other))
  end.

(** Truth value of an optional string, as [not os.getenv(...)] tests it. *)
Definition truthy_str (v : option string) : bool :=
  match v with
  | None => false
  | Some EmptyString => false
  | Some _ => true
  end.

(** [str(x)] of an optional string, as [print(x)] shows it. *)
Definition str_opt (v : option string) : string :=
  match v with
  | None => "None"
  | Some s => s
  end.

Definition newline : string := String "010"%char "".

Definition dec (n : nat) : string := NilZero.string_of_uint (Nat.to_uint n).

Definition dec2 (n : nat) : string :=
  if Nat.ltb n 10 then "0" ++ dec n else dec n.

(** ** A JSON decoder

    A decoder for the text the service puts in a tool call's [arguments],
    written after the decoder of Python's [json] module: the same grammar,
    [NaN], [Infinity] and [-Infinity] included, control characters refused
    inside strings, the last value kept for a repeated key, integers of any
    length.  Strings are UTF-8 byte strings.  The machines take the decoder
    from the [World]; this one serves the sample worlds. *)
Module Json.

Definition dquote : ascii := "034"%char.
Definition backslash : ascii := "092"%char.

Definition is_ws (c : ascii) : bool :=
  match c with
  | " "%char | "009"%char | "010"%char | "013"%char => true
  | _ => false
  end.

Fixpoint skip_ws (s : string) : string :=
  match s with
  | String c r => if is_ws c then skip_ws r else s
  | EmptyString => s
  end.

Definition digit_of (c : ascii) : option N :=
  let n := N_of_ascii c in
  if (48 <=? n)%N && (n <=? 57)%N then Some (n - 48)%N else None.

Definition hex_of (c : ascii) : option N :=
  let n := N_of_ascii c in
  if (48 <=? n)%N && (n <=? 57)%N then Some (n - 48)%N
  else if (97 <=? n)%N && (n <=? 102)%N then Some (n - 87)%N
  else if (65 <=? n)%N && (n <=? 70)%N then Some (n - 55)%N
  else None.

(** The longest run of digits at the head of [s], and what follows it. *)
Fixpoint span_digits (s : string) : string * string :=
  match s with
  | String c r =>
      match digit_of c with
      | Some _ => let (ds, rest) := span_digits r in (String c ds, rest)
      | None => ("", s)
      end
  | EmptyString => ("", s)
  end.

Fixpoint strip_prefix (p s : string) : option string :=
  match p, s with
  | EmptyString, _ => Some s
  | String a p', String b s' => if Ascii.eqb a b then strip_prefix p' s' else None
  | String _ _, EmptyString => None
  end.

Definition is_empty (s : string) : bool :=
  match s with EmptyString => true | _ => false end.

(** An optional minus sign, then [0] or a digit from 1 to 9 and any
    number of digits. *)
Definition scan_integer (s : string) : option (bool * string * string) :=
  let (neg, s1) :=
    match s with
    | String "-"%char r => (true, r)
    | _ => (false, s)
    end in
  match s1 with
  | String "0"%char r => Some (neg, "0", r)
  | String c r =>
      match digit_of c with
      | Some _ => let (ds, rest) := span_digits r in Some (neg, String c ds, rest)
      | None => None
      end
  | EmptyString => None
  end.

(** An optional fraction: a dot and at least one digit. *)
Definition scan_frac (s : string) : string * string :=
  match s with
  | String "."%char r =>
      let (ds, rest) := span_digits r in
      if is_empty ds then ("", s) else (String "."%char ds, rest)
  | _ => ("", s)
  end.

(** An optional exponent: [e] or [E], an optional sign, at least one
    digit. *)
Definition scan_exp (s : string) : string * string :=
  match s with
  | String c r =>
      if Ascii.eqb c "e"%char || Ascii.eqb c "E"%char then
        let (sign, r1) :=
          match r with
          | String "-"%char r' => ("-", r')
          | String "+"%char r' => ("+", r')
          | _ => ("", r)
          end in
        let (ds, rest) := span_digits r1 in
        if is_empty ds then ("", s) else (String c (sign ++ ds), rest)
      else ("", s)
  | EmptyString => ("", s)
  end.

Fixpoint digits_value (acc : N) (ds : string) : N :=
  match ds with
  | String c r =>
      match digit_of c with
      | Some d => digits_value (10 * acc + d)%N r
      | None => acc
      end
  | EmptyString => acc
  end.

Definition scan_number (s : string) : option (json * string) :=
  match scan_integer s with
  | None => None
  | Some (neg, ds, r) =>
      let (frac, r1) := scan_frac r in
      let (ex, r2) := scan_exp r1 in
      if is_empty frac && is_empty ex then
        let n := Z.of_N (digits_value 0 ds) in
        Some (JInt (if neg then (- n)%Z else n), r2)
      else
        Some (JFloat ((if neg then "-" else "") ++ ds ++ frac ++ ex), r2)
  end.

(** UTF-8 bytes of a code point. *)
Definition byte (n : N) : ascii := ascii_of_N n.

Definition utf8 (n : N) : string :=
  if (n <? 128)%N then String (byte n) ""
  else if (n <? 2048)%N then
    String (byte (192 + n / 64)) (String (byte (128 + n mod 64)) "")
  else if (n <? 65536)%N then
    String (byte (224 + n / 4096))
      (String (byte (128 + (n / 64) mod 64)) (String (byte (128 + n mod 64)) ""))
  else
    String (byte (240 + n / 262144))
      (String (byte (128 + (n / 4096) mod 64))
         (String (byte (128 + (n / 64) mod 64)) (String (byte (128 + n mod 64)) ""))).

(** Four hexadecimal digits. *)
Definition hex4 (s : string) : option (N * string) :=
  match s with
  | String a (String b (String c (String d r))) =>
      match hex_of a, hex_of b, hex_of c, hex_of d with
      | Some x, Some y, Some z, Some w => Some (4096 * x + 256 * y + 16 * z + w, r)%N
      | _, _, _, _ => None
      end
  | _ => None
  end.

Definition simple_escape (c : ascii) : option ascii :=
  match c with
  | "034"%char => Some "034"%char
  | "092"%char => Some "092"%char
  | "/"%char => Some "/"%char
  | "b"%char => Some "008"%char
  | "f"%char => Some "012"%char
  | "n"%char => Some "010"%char
  | "r"%char => Some "013"%char
  | "t"%char => Some "009"%char
  | _ => None
  end.

(** A [\uXXXX] escape was read as [hi]; a high surrogate followed by an
    escaped low surrogate makes one code point. *)
Definition unicode_escape (hi : N) (r : string) : N * string :=
  if (55296 <=? hi)%N && (hi <=? 56319)%N then
    match r with
    | String "092"%char (String "u"%char r') =>
        match hex4 r' with
        | Some (lo, r'') =>
            if (56320 <=? lo)%N && (lo <=? 57343)%N
            then (65536 + (hi - 55296) * 1024 + (lo - 56320), r'')%N
            else (hi, r)
        | None => (hi, r)
        end
    | _ => (hi, r)
    end
  else (hi, r).

(** The body of a string, from after its opening quote to its closing one. *)
Fixpoint scan_string (fuel : nat) (s : string) : option (string * string) :=
  match fuel with
  | O => None
  | S fuel' =>
      match s with
      | EmptyString => None
      | String c r =>
          if Ascii.eqb c dquote then Some ("", r)
          else if Ascii.eqb c backslash then
            match r with
            | EmptyString => None
            | String e r' =>
                match simple_escape e with
                | Some ch =>
                    match scan_string fuel' r' with
                    | Some (body, rest) => Some (String ch body, rest)
                    | None => None
                    end
                | None =>
                    if Ascii.eqb e "u"%char then
                      match hex4 r' with
                      | Some (hi, r'') =>
                          let (cp, r3) := unicode_escape hi r'' in
                          match scan_string fuel' r3 with
                          | Some (body, rest) => Some (utf8 cp ++ body, rest)
                          | None => None
                          end
                      | None => None
                      end
                    else None
                end
            end
          else if (N_of_ascii c <? 32)%N then None
          else
            match scan_string fuel' r with
            | Some (body, rest) => Some (String c body, rest)
            | None => None
            end
      end
  end.

Definition scan_literal (s : string) : option (json * string) :=
  match strip_prefix "null" s with
  | Some r => Some (JNull, r)
  | None =>
  match strip_prefix "true" s with
  | Some r => Some (JBool true, r)
  | None =>
  match strip_prefix "false" s with
  | Some r => Some (JBool false, r)
  | None =>
  match scan_number s with
  | Some res => Some res
  | None =>
  match strip_prefix "NaN" s with
  | Some r => Some (JFloat "NaN", r)
  | None =>
  match strip_prefix "Infinity" s with
  | Some r => Some (JFloat "Infinity", r)
  | None =>
  match strip_prefix "-Infinity" s with
  | Some r => Some (JFloat "-Infinity", r)
  | None => None
  end end end end end end end.

(** One value at the head of [s]; [parse_elements] reads an array from its
    first element on, [parse_members] an object from after the opening
    quote of a key. *)
Fixpoint parse_value (fuel : nat) (s : string) : option (json * string) :=
  match fuel with
  | O => None
  | S fuel' =>
      match s with
      | EmptyString => None
      | String c r =>
          if Ascii.eqb c dquote then
            match scan_string (String.length r) r with
            | Some (body, rest) => Some (JStr body, rest)
            | None => None
            end
          else if Ascii.eqb c "{"%char then
            match skip_ws r with
            | String "}"%char rest => Some (JObj [], rest)
            | String "034"%char rest =>
                match parse_members fuel' rest [] with
                | Some (d, rest') => Some (JObj d, rest')
                | None => None
                end
            | _ => None
            end
          else if Ascii.eqb c "["%char then
            match skip_ws r with
            | String "]"%char rest => Some (JArr [], rest)
            | r' =>
                match parse_elements fuel' r' [] with
                | Some (items, rest) => Some (JArr items, rest)
                | None => None
                end
            end
          else scan_literal s
      end
  end
with parse_elements (fuel : nat) (s : string) (acc : list json)
  : option (list json * string) :=
  match fuel with
  | O => None
  | S fuel' =>
      match parse_value fuel' s with
      | None => None
      | Some (v, r) =>
          match skip_ws r with
          | String ","%char r' => parse_elements fuel' (skip_ws r') (acc ++ [v])%list
          | String "]"%char r' => Some ((acc ++ [v])%list, r')
          | _ => None
          end
      end
  end
with parse_members (fuel : nat) (s : string) (acc : list (string * json))
  : option (list (string * json) * string) :=
  match fuel with
  | O => None
  | S fuel' =>
      match scan_string (String.length s) s with
      | None => None
      | Some (key, r) =>
          match skip_ws r with
          | String ":"%char r1 =>
              match parse_value fuel' (skip_ws r1) with
              | None => None
              | Some (v, r2) =>
                  match skip_ws r2 with
                  | String "}"%char r3 => Some (dict_set acc key v, r3)
                  | String ","%char r3 =>
                      match skip_ws r3 with
                      | String "034"%char r4 =>
                          parse_members fuel' r4 (dict_set acc key v)
                      | _ => None
                      end
                  | _ => None
                  end
              end
          | _ => None
          end
      end
  end.

(** [json.loads(s)]: one value, blanks around it, nothing else. *)
Definition loads (s : string) : option json :=
  match parse_value (2 * String.length s + 2) (skip_ws s) with
  | Some (v, r) =>
      match skip_ws r with
      | EmptyString => Some v
      | _ => None
      end
  | None => None
  end.

End Json.

(** ** The SDK's data *)

Inductive Role : Type := system | user | assistant | tool.

(** A tool-call request of an assistant reply: [tool_call.id],
    [tool_call.function.name], [tool_call.function.arguments]. *)
Record ToolCall : Type := {
  call_id : string;
  function_name : string;
  arguments : string
}.

(** The message object of a reply; its role is always "assistant". *)
Record ChatCompletionMessage : Type := {
  content : option string;
  tool_calls : option (list ToolCall)
}.

(** What the scripts put in a [messages] list. *)
Inductive Message : Type :=
| Dict (role : Role) (text : string)
    (* {"role": ..., "content": ...} *)
| ToolDict (tool_call_id : string) (name : string) (text : string)
    (* {"tool_call_id": ..., "role": "tool", "name": ..., "content": ...} *)
| Reply (m : ChatCompletionMessage).
    (* the reply's message object, appended as it is *)

Definition role_of (m : Message) : Role :=
  match m with
  | Dict r _ => r
  | ToolDict _ _ _ => tool
  | Reply _ => assistant
  end.

Definition is_tool_message (m : Message) : bool :=
  match m with
  | ToolDict _ _ _ => true
  | _ => false
  end.

Record Property : Type := {
  prop_name : string;
  prop_type : string;
  prop_description : string
}.

(** An entry of the tool catalog:
    {"type": "function", "function": {"name", "description",
     "parameters": {"type": "object", "properties", "required"}}}. *)
Record Tool : Type := {
  tool_name : string;
  tool_description : string;
  properties : list Property;
  required : list string
}.

(** The keyword arguments of [client.chat.completions.create]. *)
Record Request : Type := {
  model : string;
  req_messages : list Message;
  req_tools : option (list Tool);
  tool_choice : option string
}.

(** A response: the [message] of each of its [choices]. *)
Record ChatCompletion : Type := {
  choices : list ChatCompletionMessage
}.

Record datetime : Type := {
  year : nat; month : nat; day : nat;
  hour : nat; minute : nat; second : nat
}.

(** ** The world a run reads *)

Record World : Type := {
  (** [os.getenv], after [load_dotenv()] *)
  getenv : string -> option string;
  (** the import of the SDK and the construction of its client: the
      exception raised, if any *)
  openai_client : option exn;
  (** [client.chat.completions.create]; the number counts the calls made
      before this one *)
  create : nat -> Request -> outcome ChatCompletion;
  (** [json.loads]; [None] when it raises *)
  json_loads : string -> option json;
  (** [datetime.now()]; the number counts the readings made before *)
  datetime_now : nat -> datetime;
  (** [str(v)] for a decoded value that is not a string *)
  py_str : json -> string
}.

(** ** What a run does *)

(** One call of [print]. *)
Inductive line : Type :=
| Text (s : string)
| ErrorReport (e : exn).   (* print(f"Error: {e}") *)

Inductive Event : Type :=
| Printed (l : line)
| Requested (r : Request)                    (* a remote call is made *)
| Invoked (name : string) (args : list json). (* a local tool function is entered *)

Fixpoint requests (t : list Event) : list Request :=
  match t with
  | [] => []
  | Requested r :: rest => r :: requests rest
  | _ :: rest => requests rest
  end.

Fixpoint invocations (t : list Event) : list (string * list json) :=
  match t with
  | [] => []
  | Invoked f args :: rest => (f, args) :: invocations rest
  | _ :: rest => invocations rest
  end.

Fixpoint printed (t : list Event) : list line :=
  match t with
  | [] => []
  | Printed l :: rest => l :: printed rest
  | _ :: rest => printed rest
  end.

(** How often the local function [f] was entered. *)
Definition times_invoked (f : string) (t : list Event) : nat :=
  length (filter (fun c => String.eqb f (fst c)) (invocations t)).

Definition api_key_name : string := "OPENAI_API_KEY".

Definition bytes (codes : list nat) : string :=
  fold_right (fun n s => String (ascii_of_nat n) s) "" codes.

(** What line 31 of use case 2 holds between [72] and [F]: the bytes
    c3 82 c2 b0, the two characters U+00C2 U+00B0. *)
Definition source_degree : string := bytes [195; 130; 194; 176].

(** The degree sign U+00B0 in UTF-8. *)
Definition degree_sign : string := bytes [194; 176].

(** ** Use case 1: one request, one answer *)
Module UseCase1.

(** Lines 15-20: what is printed, and the exit status if the script stops. *)
Definition check_env (W : World) : list line * option Z :=
  if negb (truthy_str (getenv W api_key_name)) then
    ([Text "Error: OPENAI_API_KEY environment variable is not set.";
      Text "Please set it in the .env file or as an environment variable."],
     Some 1%Z)
  else ([], None).

Definition request : Request :=
  {| model := "gpt-3.5-turbo";
     req_messages :=
       [Dict system "You are a helpful assistant.";
        Dict user "Write a haiku about the ocean."];
     req_tools := None;
     tool_choice := None |}.

Inductive Pc : Type :=
| AtCheckEnv                          (* line 24 *)
| AtStart                             (* lines 26-35 *)
| AtCall                              (* lines 38-44 *)
| AtAnswer (response : ChatCompletion) (* lines 47-48 *)
| AtDone                              (* line 50 *)
| AtHandler (e : exn)                 (* lines 52-54 *)
| Halted (code : Z).

Record State : Type := {
  pc : Pc;
  trace : list Event
}.

Definition goto (p : Pc) (events : list Event) (s : State) : State :=
  {| pc := p; trace := trace s ++ events |}.

Definition step (W : World) (s : State) : State :=
  match pc s with
  | AtCheckEnv =>
      match check_env W with
      | (out, Some code) => goto (Halted code) (map Printed out) s
      | (out, None) => goto AtStart (map Printed out) s
      end
  | AtStart =>
      let greeting := Printed (Text "Starting Use Case 1: Simple Agent Example") in
      match openai_client W with
      | Some e => goto (AtHandler e) [greeting] s
      | None => goto AtCall [greeting] s
      end
  | AtCall =>
      match create W (length (requests (trace s))) request with
      | Returned response => goto (AtAnswer response) [Requested request] s
      | Raised e => goto (AtHandler e) [Requested request] s
      end
  | AtAnswer response =>
      let header := Printed (Text (newline ++ "Agent Response:")) in
      match choices response with
      | [] => goto (AtHandler IndexError) [header] s
      | m :: _ => goto AtDone [header; Printed (Text (str_opt (content m)))] s
      end
  | AtDone =>
      goto (Halted 0)
        [Printed (Text (newline ++ "Use Case 1 completed successfully."))] s
  | AtHandler e => goto (Halted 1) [Printed (ErrorReport e)] s
  | Halted _ => s
  end.

Definition initial : State := {| pc := AtCheckEnv; trace := [] |}.

Fixpoint run (W : World) (fuel : nat) (s : State) : State :=
  match fuel with
  | O => s
  | S n => run W n (step W s)
  end.

(** The state of a run of the script after [fuel] steps. *)
Definition main (W : World) (fuel : nat) : State := run W fuel initial.

End UseCase1.

(** ** Use case 2: the tool-calling orchestrator *)
Module UseCase2.

(** Lines 16-21. *)
Definition check_env (W : World) : list line * option Z :=
  if negb (truthy_str (getenv W api_key_name)) then
    ([Text "Error: OPENAI_API_KEY environment variable is not set.";
      Text "Please set it in the .env file or as an environment variable."],
     Some 1%Z)
  else ([], None).

(** Lines 23-26: [now.strftime("%Y-%m-%d %H:%M:%S")] of the clock's
    reading; the clock's years have four digits. *)
Definition get_current_time (now : datetime) : string :=
  dec (year now) ++ "-" ++ dec2 (month now) ++ "-" ++ dec2 (day now) ++ " "
  ++ dec2 (hour now) ++ ":" ++ dec2 (minute now) ++ ":" ++ dec2 (second now).

(** The value of [{location}] in the f-string of line 31. *)
Definition format_value (W : World) (v : json) : string :=
  match v with
  | JStr s => s
  | other => py_str W other
  end.

(** Lines 28-31; [None] is a call without the argument. *)
Definition get_weather (W : World) (location : option json) : string :=
  let location :=
    match location with
    | Some v => v
    | None => JStr "New York"
    end in
  "The weather in " ++ format_value W location
  ++ " is currently sunny and 72" ++ source_degree ++ "F.".

(** Lines 49-79. *)
Definition tools : list Tool :=
  [ {| tool_name := "get_current_time";
       tool_description := "Get the current date and time";
       properties := [];
       required := [] |};
    {| tool_name := "get_weather";
       tool_description := "Get the current weather for a location";
       properties :=
         [ {| prop_name := "location";
              prop_type := "string";
              prop_description := "The city and state, e.g. San Francisco, CA" |} ];
       required := ["location"] |} ].

(** Lines 82-85. *)
Definition initial_messages : list Message :=
  [Dict system "You are a helpful assistant with access to tools.";
   Dict user "What time is it now? And what's the weather in Tokyo?"].

(** Lines 88-93. *)
Definition first_request (messages : list Message) : Request :=
  {| model := "gpt-3.5-turbo";
     req_messages := messages;
     req_tools := Some tools;
     tool_choice := Some "auto" |}.

(** Lines 127-130. *)
Definition follow_up_request (messages : list Message) : Request :=
  {| model := "gpt-3.5-turbo";
     req_messages := messages;
     req_tools := None;
     tool_choice := None |}.

(** Lines 105-114: the events of one dispatch and the [function_response]
    it computes.  [clock] counts the earlier readings of the clock. *)
Definition dispatch (W : World) (clock : nat) (tool_call : ToolCall)
  : list Event * outcome string :=
  let function_name := function_name tool_call in
  match json_loads W (arguments tool_call) with
  | None => ([], Raised JSONDecodeError)
  | Some function_args =>
      if String.eqb function_name "get_current_time" then
        ([Invoked "get_current_time" []],
         Returned (get_current_time (datetime_now W clock)))
      else if String.eqb function_name "get_weather" then
        match py_get function_args "location" (JStr "New York") with
        | Raised e => ([], Raised e)
        | Returned location =>
            ([Invoked "get_weather" [location]],
             Returned (get_weather W (Some location)))
        end
      else
        ([], Returned ("Error: Function " ++ function_name ++ " not implemented"))
  end.

(** Lines 117-122. *)
Definition tool_message (tool_call : ToolCall) (function_response : string)
  : Message :=
  ToolDict (call_id tool_call) (function_name tool_call) function_response.

(** Truth value of [assistant_response.tool_calls] (line 102). *)
Definition wants_tools (m : ChatCompletionMessage) : bool :=
  match tool_calls m with
  | Some (_ :: _) => true
  | _ => false
  end.

Definition requested_calls (m : ChatCompletionMessage) : list ToolCall :=
  match tool_calls m with
  | Some calls => calls
  | None => []
  end.

Inductive Pc : Type :=
| AtCheckEnv                           (* line 35 *)
| AtStart                              (* lines 37-85 *)
| AtFirstCall                          (* lines 88-93 *)
| AtReply (response : ChatCompletion)  (* lines 96-99 *)
| AtBranch (reply : ChatCompletionMessage)   (* line 102 *)
| AtLoop (pending : list ToolCall)     (* lines 104-124, one turn a step *)
| AtFollowUp                           (* lines 127-130 *)
| AtFinal (response : ChatCompletion)  (* lines 133-134 *)
| AtNoTools (reply : ChatCompletionMessage)  (* lines 137-138 *)
| AtDone                               (* line 140 *)
| AtHandler (e : exn)                  (* lines 142-144 *)
| Halted (code : Z).

Record State : Type := {
  pc : Pc;
  messages : list Message;
  trace : list Event
}.

(** Move on, with the events of the step and the messages it appends. *)
Definition goto (p : Pc) (events : list Event) (appended : list Message)
  (s : State) : State :=
  {| pc := p;
     messages := messages s ++ appended;
     trace := trace s ++ events |}.

Definition step (W : World) (s : State) : State :=
  match pc s with
  | AtCheckEnv =>
      match check_env W with
      | (out, Some code) => goto (Halted code) (map Printed out) [] s
      | (out, None) => goto AtStart (map Printed out) [] s
      end
  | AtStart =>
      let greeting := Printed (Text "Starting Use Case 2: Agent with Tool Example") in
      match openai_client W with
      | Some e => goto (AtHandler e) [greeting] [] s
      | None =>
          {| pc := AtFirstCall;
             messages := initial_messages;
             trace := trace s ++ [greeting] |}
      end
  | AtFirstCall =>
      let request := first_request (messages s) in
      match create W (length (requests (trace s))) request with
      | Returned response => goto (AtReply response) [Requested request] [] s
      | Raised e => goto (AtHandler e) [Requested request] [] s
      end
  | AtReply response =>
      match choices response with
      | [] => goto (AtHandler IndexError) [] [] s
      | assistant_response :: _ =>
          goto (AtBranch assistant_response)
            [Printed (Text (newline ++ "Assistant is thinking..."))]
            [Reply assistant_response] s
      end
  | AtBranch assistant_response =>
      if wants_tools assistant_response
      then goto (AtLoop (requested_calls assistant_response)) [] [] s
      else goto (AtNoTools assistant_response) [] [] s
  | AtLoop [] => goto AtFollowUp [] [] s
  | AtLoop (tool_call :: rest) =>
      match dispatch W (times_invoked "get_current_time" (trace s)) tool_call with
      | (events, Raised e) => goto (AtHandler e) events [] s
      | (events, Returned function_response) =>
          goto (AtLoop rest)
            (events ++ [Printed (Text ("Tool used: " ++ function_name tool_call))])
            [tool_message tool_call function_response] s
      end
  | AtFollowUp =>
      let request := follow_up_request (messages s) in
      match create W (length (requests (trace s))) request with
      | Returned response => goto (AtFinal response) [Requested request] [] s
      | Raised e => goto (AtHandler e) [Requested request] [] s
      end
  | AtFinal final_response =>
      let header := Printed (Text (newline ++ "Final Agent Response:")) in
      match choices final_response with
      | [] => goto (AtHandler IndexError) [header] [] s
      | m :: _ => goto AtDone [header; Printed (Text (str_opt (content m)))] [] s
      end
  | AtNoTools assistant_response =>
      goto AtDone
        [Printed (Text (newline ++ "Agent Response (no tools used):"));
         Printed (Text (str_opt (content assistant_response)))] [] s
  | AtDone =>
      goto (Halted 0)
        [Printed (Text (newline ++ "Use Case 2 completed successfully."))] [] s
  | AtHandler e => goto (Halted 1) [Printed (ErrorReport e)] [] s
  | Halted _ => s
  end.

Definition initial : State :=
  {| pc := AtCheckEnv; messages := []; trace := [] |}.

Fixpoint run (W : World) (fuel : nat) (s : State) : State :=
  match fuel with
  | O => s
  | S n => run W n (step W s)
  end.

(** The state of a run of the script after [fuel] steps. *)
Definition main (W : World) (fuel : nat) : State := run W fuel initial.


End UseCase2.

Import UseCase2.

(** ** The loop as a whole *)

(** Lines 104-124 run to the end of [calls] or to the first exception: the
    events, the messages appended, and the exception if there is one.
    [loop_agrees] below relates it to the machine's steps. *)
Fixpoint dispatch_all (W : World) (clock : nat) (calls : list ToolCall)
  : list Event * list Message * option exn :=
  match calls with
  | [] => ([], [], None)
  | tool_call :: rest =>
      match dispatch W clock tool_call with
      | (events, Raised e) => (events, [], Some e)
      | (events, Returned function_response) =>
          let '(later, appended, err) :=
            dispatch_all W (clock + times_invoked "get_current_time" events) rest in
          ((events ++ Printed (Text ("Tool used: " ++ function_name tool_call))
              :: later)%list,
           tool_message tool_call function_response :: appended,
           err)
      end
  end.

(** The names that lines 109-112 dispatch to a local function. *)
Definition implemented (name : string) : bool :=
  String.eqb name "get_current_time" || String.eqb name "get_weather".

(** The arguments of [c] decode, and to a dict if [c] names [get_weather]. *)
Definition decodes_for_dispatch (W : World) (c : ToolCall) : Prop :=
  exists v, json_loads W (arguments c) = Some v /\
            (function_name c = "get_weather" -> exists d, v = JObj d).

(** [m] is the tool message of lines 117-122 for the request [c]: it echoes
    the request's id and function name and carries what dispatch returned. *)
Definition answers_to (W : World) (c : ToolCall) (m : Message) : Prop :=
  exists function_response,
    m = ToolDict (call_id c) (function_name c) function_response /\
    exists clock events,
      dispatch W clock c = (events, Returned function_response).

(** [reply] is the message of the first choice of the first response. *)
Definition first_reply (W : World) (reply : ChatCompletionMessage) : Prop :=
  exists response others,
    create W 0 (first_request initial_messages) = Returned response /\
    choices response = reply :: others.

(** What holds of a state of a run, by program point. *)
Definition invariant (W : World) (s : State) : Prop :=
  match pc s with
  | AtCheckEnv | AtStart =>
      messages s = [] /\ requests (trace s) = []
  | AtFirstCall =>
      messages s = initial_messages /\ requests (trace s) = []
  | AtReply response =>
      messages s = initial_messages /\
      requests (trace s) = [first_request initial_messages] /\
      create W 0 (first_request initial_messages) = Returned response
  | AtBranch reply | AtNoTools reply =>
      messages s = (initial_messages ++ [Reply reply])%list /\
      requests (trace s) = [first_request initial_messages] /\
      first_reply W reply
  | AtLoop pending =>
      requests (trace s) = [first_request initial_messages] /\
      exists reply done answers,
        first_reply W reply /\
        wants_tools reply = true /\
        requested_calls reply = (done ++ pending)%list /\
        messages s = (initial_messages ++ Reply reply :: answers)%list /\
        Forall2 (answers_to W) done answers
  | AtFollowUp =>
      requests (trace s) = [first_request initial_messages] /\
      exists reply answers,
        first_reply W reply /\
        wants_tools reply = true /\
        messages s = (initial_messages ++ Reply reply :: answers)%list /\
        Forall2 (answers_to W) (requested_calls reply) answers
  | AtFinal _ => length (requests (trace s)) = 2
  | AtDone | AtHandler _ | Halted _ => length (requests (trace s)) <= 2
  end.

(** The trace of a run up to the branch of line 102. *)
Definition opening_trace : list Event :=
  [Printed (Text "Starting Use Case 2: Agent with Tool Example");
   Requested (first_request initial_messages);
   Printed (Text (newline ++ "Assistant is thinking...")%string)].

(** The program points after which a run only prints. *)
Definition winding_down (s : State) : bool :=
  match pc s with
  | AtFinal _ | AtNoTools _ | AtDone | AtHandler _ | Halted _ => true
  | _ => false
  end.


(** ** Sample worlds *)

Definition quoted (s : string) : string :=
  String Json.dquote (s ++ String Json.dquote "").

(** [str] of [None], of a boolean and of an integer; the sample runs format
    no float, list or dict, which are shown by their literal or a mark. *)
Definition sample_str (v : json) : string :=
  match v with
  | JNull => "None"
  | JBool true => "True"
  | JBool false => "False"
  | JInt z => NilZero.string_of_int (Z.to_int z)
  | JFloat literal => literal
  | JStr s => s
  | JArr _ => "[...]"
  | JObj _ => "{...}"
  end.

Definition sample_clock : datetime :=
  {| year := 2025; month := 3; day := 9; hour := 14; minute := 5; second := 0 |}.

Definition response_of (m : ChatCompletionMessage) : outcome ChatCompletion :=
  Returned {| choices := [m] |}.

(** A world with the credential [key] whose service answers the n-th call
    with the n-th of [replies], and fails when there is none. *)
Definition sample_world (key : option string)
  (replies : list (outcome ChatCompletion)) : World :=
  {| getenv := fun name => if String.eqb name api_key_name then key else None;
     openai_client := None;
     create := fun n _ => nth n replies (Raised (LibraryError "Connection error."));
     json_loads := Json.loads;
     datetime_now := fun _ => sample_clock;
     py_str := sample_str |}.

Definition asks (calls : list ToolCall) : ChatCompletionMessage :=
  {| content := None; tool_calls := Some calls |}.

Definition says (text : string) : ChatCompletionMessage :=
  {| content := Some text; tool_calls := None |}.

Definition time_call : ToolCall :=
  {| call_id := "call_1"; function_name := "get_current_time"; arguments := "{}" |}.

Definition tokyo_call : ToolCall :=
  {| call_id := "call_2"; function_name := "get_weather";
     arguments := "{" ++ quoted "location" ++ ": " ++ quoted "Tokyo" ++ "}" |}.

(** Arguments cut off after the opening brace: not JSON. *)
Definition cut_off_call : ToolCall :=
  {| call_id := "call_2"; function_name := "get_weather";
     arguments := "{" ++ quoted "location" ++ ": " ++ String Json.dquote "Tok" |}.

(** A name outside the catalog, with arguments that are not JSON. *)
Definition stock_call : ToolCall :=
  {| call_id := "call_1"; function_name := "get_stock_price";
     arguments := "symbol=ACME" |}.

(** The same name with arguments that are JSON. *)
Definition stock_call_json : ToolCall :=
  {| call_id := "call_1"; function_name := "get_stock_price";
     arguments := "{" ++ quoted "symbol" ++ ": " ++ quoted "ACME" ++ "}" |}.

(** Arguments that are JSON, an array and no object. *)
Definition array_call : ToolCall :=
  {| call_id := "call_1"; function_name := "get_weather";
     arguments := "[" ++ quoted "Tokyo" ++ "]" |}.

Definition final_text : string := "It is 14:05 and sunny in Tokyo.".

(** The run the script was written for: both tools are asked for. *)
Definition tokyo_world : World :=
  sample_world (Some "sk-test")
    [response_of (asks [time_call; tokyo_call]); response_of (says final_text)].

(** The model answers at once. *)
Definition plain_world : World :=
  sample_world (Some "sk-test") [response_of (says "I cannot tell the time.")].

(** The second tool call's arguments are cut off. *)
Definition cut_off_world : World :=
  sample_world (Some "sk-test")
    [response_of (asks [time_call; cut_off_call]); response_of (says final_text)].

(** One tool call, its arguments cut off. *)
Definition cut_off_only_world : World :=
  sample_world (Some "sk-test")
    [response_of (asks [cut_off_call]); response_of (says final_text)].

Definition stock_world : World :=
  sample_world (Some "sk-test")
    [response_of (asks [stock_call]); response_of (says final_text)].

Definition stock_json_world : World :=
  sample_world (Some "sk-test")
    [response_of (asks [stock_call_json]); response_of (says final_text)].

Definition array_world : World :=
  sample_world (Some "sk-test")
    [response_of (asks [array_call]); response_of (says final_text)].

(** No credential in the environment. *)
Definition bare_world : World := sample_world None [].

(** The credential is set to the empty string. *)
Definition empty_key_world : World :=
  sample_world (Some "") [response_of (says final_text)].

(** The service fails on the first call. *)
Definition unreachable_world : World := sample_world (Some "sk-test") [].

(** The service answers the first call and fails on the follow-up. *)
Definition dropped_world : World :=
  sample_world (Some "sk-test") [response_of (asks [time_call; tokyo_call])].

(** The first response has no choice. *)
Definition no_choice_world : World :=
  sample_world (Some "sk-test") [Returned {| choices := [] |}].

(** The follow-up response has no choice. *)
Definition no_final_choice_world : World :=
  sample_world (Some "sk-test")
    [response_of (asks [time_call]); Returned {| choices := [] |}].

(** The SDK cannot be imported. *)
Definition no_sdk_world : World :=
  {| getenv := fun name =>
       if String.eqb name api_key_name then Some "sk-test" else None;
     openai_client := Some (LibraryError "No module named 'openai'");
     create := fun _ _ => Raised (LibraryError "Connection error.");
     json_loads := Json.loads;
     datetime_now := fun _ => sample_clock;
     py_str := sample_str |}.

(** ** What the properties below speak of *)

(** The order of the remote calls and the tool functions of a run:
    nothing but printing before the first call, tool functions between
    the first call and the second, nothing but printing after the second.
    [protocol p t] is the phase after the events [t] from phase [p], if
    the events keep to that order. *)
Inductive Phase : Type := BeforeFirstCall | Dispatching | AfterFollowUp.

Fixpoint protocol (p : Phase) (t : list Event) : option Phase :=
  match t with
  | [] => Some p
  | Printed _ :: rest => protocol p rest
  | Requested _ :: rest =>
      match p with
      | BeforeFirstCall => protocol Dispatching rest
      | Dispatching => protocol AfterFollowUp rest
      | AfterFollowUp => None
      end
  | Invoked _ _ :: rest =>
      match p with
      | Dispatching => protocol Dispatching rest
      | _ => None
      end
  end.

Definition is_digit (c : ascii) : bool :=
  match Json.digit_of c with
  | Some _ => true
  | None => false
  end.

(** The text has the shape of [%Y-%m-%d %H:%M:%S] with a year of four
    digits: dddd-dd-dd dd:dd:dd. *)
Definition timestamp_shape (s : string) : bool :=
  match s with
  | String y1 (String y2 (String y3 (String y4 (String "-"
    (String m1 (String m2 (String "-"
    (String d1 (String d2 (String " "
    (String h1 (String h2 (String ":"
    (String n1 (String n2 (String ":"
    (String s1 (String s2 EmptyString)))))))))))))))))) =>
      forallb is_digit [y1; y2; y3; y4; m1; m2; d1; d2; h1; h2; n1; n2; s1; s2]
  | _ => false
  end.

(** A reading the clock can give: a year of four digits, a month, a day,
    and a time of day. *)
Definition clock_reading (now : datetime) : Prop :=
  1000 <= year now < 10 * 1000 /\ 1 <= month now <= 12 /\ 1 <= day now <= 31 /\
  hour now <= 23 /\ minute now <= 59 /\ second now <= 59.




(** The tool messages of a state answer, one for one and in order, the
    first requests of the first reply; [rest] are the requests without an
    answer yet. *)
Definition answers_a_prefix (W : World) (s : State) : Prop :=
  filter is_tool_message (messages s) = [] \/
  exists reply done rest,
    first_reply W reply /\
    requested_calls reply = (done ++ rest)%list /\
    Forall2 (answers_to W) done (filter is_tool_message (messages s)).


(** The phase that goes with each program point. *)
Definition in_phase (s : State) : Prop :=
  match pc s with
  | AtCheckEnv | AtStart | AtFirstCall =>
      protocol BeforeFirstCall (trace s) = Some BeforeFirstCall
  | AtReply _ | AtBranch _ | AtLoop _ | AtFollowUp | AtNoTools _ =>
      protocol BeforeFirstCall (trace s) = Some Dispatching
  | AtFinal _ =>
      protocol BeforeFirstCall (trace s) = Some AfterFollowUp
  | AtDone | AtHandler _ | Halted _ =>
      exists q, protocol BeforeFirstCall (trace s) = Some q
  end.

Definition two_digits (s : string) : bool :=
  match s with
  | String a (String b EmptyString) => is_digit a && is_digit b
  | _ => false
  end.

Definition four_digits (s : string) : bool :=
  match s with
  | String a (String b (String c (String d EmptyString))) =>
      is_digit a && is_digit b && is_digit c && is_digit d
  | _ => false
  end.

(** The decimal number [d] with the digit [k] put before it. *)
Definition add_digit (k : nat) (d : Decimal.uint) : Decimal.uint :=
  match k with
  | 0 => Decimal.D0 d | 1 => Decimal.D1 d | 2 => Decimal.D2 d
  | 3 => Decimal.D3 d | 4 => Decimal.D4 d | 5 => Decimal.D5 d
  | 6 => Decimal.D6 d | 7 => Decimal.D7 d | 8 => Decimal.D8 d
  | _ => Decimal.D9 d
  end.

(** * Properties *)

Local Open Scope list_scope.

(** ** Traces *)

Lemma requests_app (t u : list Event) :
  requests (t ++ u) = requests t ++ requests u.
Proof.
  induction t as [|e t IH]; simpl; [reflexivity|].
  destruct e; simpl; rewrite IH; reflexivity.
Qed.

Lemma invocations_app (t u : list Event) :
  invocations (t ++ u) = invocations t ++ invocations u.
Proof.
  induction t as [|e t IH]; simpl; [reflexivity|].
  destruct e; simpl; rewrite IH; reflexivity.
Qed.

Lemma printed_app (t u : list Event) :
  printed (t ++ u) = printed t ++ printed u.
Proof.
  induction t as [|e t IH]; simpl; [reflexivity|].
  destruct e; simpl; rewrite IH; reflexivity.
Qed.

Lemma times_invoked_app (f : string) (t u : list Event) :
  times_invoked f (t ++ u) = times_invoked f t + times_invoked f u.
Proof.
  unfold times_invoked.
  rewrite invocations_app, filter_app, length_app. reflexivity.
Qed.

Lemma requests_printed (ls : list line) : requests (map Printed ls) = [].
Proof. induction ls; simpl; auto. Qed.

(** ** Steps and runs *)

Section Machine.

Variable W : World.

Lemma goto_goto p1 e1 m1 p2 e2 m2 (s : State) :
  goto p2 e2 m2 (goto p1 e1 m1 s) = goto p2 (e1 ++ e2) (m1 ++ m2) s.
Proof. unfold goto; simpl. rewrite !app_assoc. reflexivity. Qed.

Lemma goto_nothing (s : State) : goto (pc s) [] [] s = s.
Proof. destruct s; unfold goto; simpl. rewrite !app_nil_r. reflexivity. Qed.

Lemma run_add (n m : nat) (s : State) :
  run W (n + m) s = run W m (run W n s).
Proof. revert s; induction n as [|n IH]; intros s; simpl; auto. Qed.

Lemma run_last (n : nat) (s : State) :
  run W (S n) s = step W (run W n s).
Proof.
  replace (S n) with (n + 1) by lia. rewrite run_add. reflexivity.
Qed.

Lemma step_halted (s : State) (code : Z) :
  pc s = Halted code -> step W s = s.
Proof. intros H. unfold step. rewrite H. reflexivity. Qed.

Lemma run_halted (n : nat) (s : State) (code : Z) :
  pc s = Halted code -> run W n s = s.
Proof.
  intros H. induction n as [|n IH]; simpl; [reflexivity|].
  rewrite (step_halted s code H). exact IH.
Qed.

(** Once a run has halted, more fuel changes nothing. *)
Lemma run_settled (n fuel : nat) (s : State) (code : Z) :
  pc (run W n s) = Halted code -> n <= fuel -> run W fuel s = run W n s.
Proof.
  intros H Hle. replace fuel with (n + (fuel - n)) by lia.
  rewrite run_add. apply run_halted with code. exact H.
Qed.

(** A step adds to the trace and takes nothing from it. *)
Lemma step_trace (s : State) :
  exists events, trace (step W s) = trace s ++ events.
Proof.
  unfold step. destruct (pc s) as [| | |r|m|[|c rest]| |r|m| |e|code] eqn:Hpc.
  - destruct (check_env W) as [out [code|]]; cbn [goto trace]; eauto.
  - destruct (openai_client W); cbn [goto trace]; eauto.
  - destruct (create W _ _); cbn [goto trace]; eauto.
  - destruct (choices r); cbn [goto trace]; eauto.
  - destruct (wants_tools m); cbn [goto trace]; eauto.
  - cbn [goto trace]; eauto.
  - destruct (dispatch W _ c) as [events [text|e]]; cbn [goto trace]; eauto.
  - destruct (create W _ _); cbn [goto trace]; eauto.
  - destruct (choices r); cbn [goto trace]; eauto.
  - cbn [goto trace]; eauto.
  - cbn [goto trace]; eauto.
  - cbn [goto trace]; eauto.
  - exists []. rewrite app_nil_r. reflexivity.
Qed.

Lemma run_trace (n : nat) (s : State) :
  exists events, trace (run W n s) = trace s ++ events.
Proof.
  revert s; induction n as [|n IH]; intros s; cbn [run].
  - exists []. rewrite app_nil_r. reflexivity.
  - destruct (step_trace s) as (e1 & H1).
    destruct (IH (step W s)) as (e2 & H2).
    rewrite H2, H1, <- app_assoc. eauto.
Qed.

Lemma main_settled (n fuel : nat) (code : Z) :
  pc (main W n) = Halted code -> n <= fuel -> main W fuel = main W n.
Proof. unfold main. apply run_settled. Qed.

(** The trace of a halted run holds the trace of every earlier state. *)
Lemma trace_before_halt (n fuel : nat) (code : Z) :
  pc (main W n) = Halted code ->
  exists later, trace (main W n) = trace (main W fuel) ++ later.
Proof.
  intros H. unfold main in *.
  destruct (Nat.le_gt_cases n fuel) as [Hle|Hgt].
  - exists []. rewrite (run_settled n fuel _ code H Hle), app_nil_r. reflexivity.
  - replace n with (fuel + (n - fuel)) by lia. rewrite run_add.
    apply run_trace.
Qed.

End Machine.

(** ** Dispatch *)

Section Dispatch.

Variable W : World.

Lemma dispatch_malformed (clock : nat) (c : ToolCall) :
  json_loads W (arguments c) = None ->
  dispatch W clock c = ([], Raised JSONDecodeError).
Proof. intros H. unfold dispatch. rewrite H. reflexivity. Qed.

Lemma dispatch_time (clock : nat) (c : ToolCall) (v : json) :
  json_loads W (arguments c) = Some v ->
  function_name c = "get_current_time"%string ->
  dispatch W clock c =
    ([Invoked "get_current_time" []],
     Returned (get_current_time (datetime_now W clock))).
Proof. intros Hv Hn. unfold dispatch. rewrite Hv, Hn. reflexivity. Qed.

Lemma dispatch_weather (clock : nat) (c : ToolCall) (v : json) :
  json_loads W (arguments c) = Some v ->
  function_name c = "get_weather"%string ->
  dispatch W clock c =
    match py_get v "location" (JStr "New York") with
    | Raised e => ([], Raised e)
    | Returned location =>
        ([Invoked "get_weather" [location]],
         Returned (get_weather W (Some location)))
    end.
Proof. intros Hv Hn. unfold dispatch. rewrite Hv, Hn. reflexivity. Qed.

Lemma dispatch_unknown (clock : nat) (c : ToolCall) (v : json) :
  json_loads W (arguments c) = Some v ->
  function_name c <> "get_current_time"%string ->
  function_name c <> "get_weather"%string ->
  dispatch W clock c =
    ([], Returned ("Error: Function " ++ function_name c ++ " not implemented")%string).
Proof.
  intros Hv H1 H2. unfold dispatch. rewrite Hv.
  apply String.eqb_neq in H1. apply String.eqb_neq in H2.
  rewrite H1, H2. reflexivity.
Qed.

(** [get] raises on everything that is not a dict, and only there. *)
Lemma py_get_returns (v : json) (key : string) (default : json) :
  (exists location, py_get v key default = Returned location) <->
  (exists d, v = JObj d).
Proof.
  split.
  - intros [location H]. destruct v; simpl in H; try discriminate. eauto.
  - intros [d ->]. simpl. destruct (dict_lookup d key); eauto.
Qed.

Lemma py_get_raises (v : json) (key : string) (default : json) :
  (forall d, v <> JObj d) ->
  py_get v key default = Raised (AttributeError (type_name v)).
Proof.
  intros H. destruct v; simpl; try reflexivity. exfalso. eapply H. reflexivity.
Qed.

(** What the events of one dispatch can be. *)
Lemma dispatch_events (clock : nat) (c : ToolCall) :
  forall events result, dispatch W clock c = (events, result) ->
  requests events = [] /\ printed events = [] /\
  match result with
  | Raised _ => events = []
  | Returned _ =>
      map fst (invocations events) =
        if implemented (function_name c) then [function_name c] else []
  end.
Proof.
  intros events result. unfold dispatch, implemented.
  destruct (json_loads W (arguments c)) as [v|].
  2:{ intros H; inversion H; subst; auto. }
  destruct (String.eqb (function_name c) "get_current_time") eqn:E1.
  { apply String.eqb_eq in E1. intros H; inversion H; subst; simpl.
    rewrite E1. auto. }
  destruct (String.eqb (function_name c) "get_weather") eqn:E2.
  { apply String.eqb_eq in E2.
    destruct (py_get v "location" (JStr "New York")); intros H; inversion H;
      subst; simpl; rewrite ?E2; auto. }
  intros H; inversion H; subst; simpl; auto.
Qed.

Lemma dispatch_decodes (clock : nat) (c : ToolCall) :
  decodes_for_dispatch W c ->
  exists events function_response,
    dispatch W clock c = (events, Returned function_response).
Proof.
  intros (v & Hv & Hobj). unfold dispatch. rewrite Hv.
  destruct (String.eqb (function_name c) "get_current_time"); [eauto|].
  destruct (String.eqb (function_name c) "get_weather") eqn:E2; [|eauto].
  apply String.eqb_eq in E2. destruct (Hobj E2) as [d ->]. simpl.
  destruct (dict_lookup d "location"); eauto.
Qed.

(** When every request decodes, the loop runs to its end: one "Tool used"
    line a request, one entry into a local function for each implemented
    name, one tool message a request, all in the order of the requests. *)
Lemma dispatch_all_decodes (calls : list ToolCall) :
  Forall (decodes_for_dispatch W) calls ->
  forall clock, exists events answers,
    dispatch_all W clock calls = (events, answers, None) /\
    requests events = [] /\
    printed events =
      map (fun c => Text ("Tool used: " ++ function_name c)%string) calls /\
    map fst (invocations events) =
      filter implemented (map function_name calls) /\
    map (fun m => match m with
                  | ToolDict i f _ => (i, f)
                  | _ => (EmptyString, EmptyString)
                  end) answers =
      map (fun c => (call_id c, function_name c)) calls.
Proof.
  induction 1 as [|c rest Hc Hrest IH]; intros clock.
  - exists [], []. simpl. auto.
  - destruct (dispatch_decodes clock c Hc) as (ev & text & Hd).
    destruct (dispatch_events clock c _ _ Hd) as (Hr & Hp & Hi).
    destruct (IH (clock + times_invoked "get_current_time" ev))
      as (evs & msgs & Hall & Hr' & Hp' & Hi' & Hm').
    exists (ev ++ Printed (Text ("Tool used: " ++ function_name c)%string) :: evs),
      (tool_message c text :: msgs).
    simpl. rewrite Hd, Hall.
    rewrite requests_app, printed_app, invocations_app, map_app. simpl.
    rewrite Hr, Hp, Hr', Hp', Hi, Hi', Hm'.
    repeat split; auto.
    destruct (implemented (function_name c)); reflexivity.
Qed.

(** The loop of the machine does what [dispatch_all] says. *)
Lemma loop_agrees (calls : list ToolCall) :
  forall (s : State) events appended err,
  pc s = AtLoop calls ->
  dispatch_all W (times_invoked "get_current_time" (trace s)) calls
    = (events, appended, err) ->
  match err with
  | None => run W (length calls) s = goto (AtLoop []) events appended s
  | Some e =>
      exists k, k <= length calls /\
                run W k s = goto (AtHandler e) events appended s
  end.
Proof.
  induction calls as [|c rest IH]; intros s events appended err Hpc Hall.
  - simpl in Hall. inversion Hall; subst. simpl.
    rewrite <- Hpc. symmetry. apply goto_nothing.
  - simpl in Hall.
    destruct (dispatch W (times_invoked "get_current_time" (trace s)) c)
      as [ev [text|e]] eqn:Hd.
    + destruct (dispatch_all W
                  (times_invoked "get_current_time" (trace s)
                   + times_invoked "get_current_time" ev) rest)
        as [[later app'] err'] eqn:Hrest.
      inversion Hall; subst; clear Hall.
      set (used := Printed (Text ("Tool used: " ++ function_name c)%string)).
      assert (Hstep : step W s =
                goto (AtLoop rest) (ev ++ [used]) [tool_message c text] s).
      { unfold step. rewrite Hpc, Hd. reflexivity. }
      assert (Hclock : times_invoked "get_current_time" (trace (step W s)) =
                times_invoked "get_current_time" (trace s)
                + times_invoked "get_current_time" ev).
      { rewrite Hstep. unfold goto; cbn [trace].
        rewrite !times_invoked_app.
        replace (times_invoked "get_current_time" [used]) with 0 by reflexivity.
        lia. }
      assert (Hpc' : pc (step W s) = AtLoop rest) by (rewrite Hstep; reflexivity).
      specialize (IH (step W s) later app' err Hpc').
      rewrite Hclock in IH. specialize (IH Hrest).
      destruct err as [e|].
      * destruct IH as (k & Hk & Hrun). exists (S k).
        split; [cbn [length]; lia|].
        cbn [run]. rewrite Hrun, Hstep, goto_goto, <- app_assoc. reflexivity.
      * cbn [length run]. rewrite IH, Hstep, goto_goto, <- app_assoc. reflexivity.
    + inversion Hall; subst; clear Hall.
      exists 1. split; [simpl; lia|].
      simpl. unfold step. rewrite Hpc, Hd. reflexivity.
Qed.

End Dispatch.

(** ** The invariant of a run *)

Section Invariant.

Variable W : World.

Lemma invariant_initial : invariant W initial.
Proof. unfold invariant; simpl. auto. Qed.

Lemma invariant_step (s : State) : invariant W s -> invariant W (step W s).
Proof.
  unfold invariant, step.
  destruct (pc s) as [| | |r|m|[|c rest]| |r|m| |e|code] eqn:Hpc.
  - (* check_env *)
    intros [Hm Hr].
    destruct (check_env W) as [out [code|]]; cbn [pc goto messages trace];
      rewrite requests_app, Hr, requests_printed, ?Hm; simpl; auto.
  - (* the greeting, the client and the initial messages *)
    intros [Hm Hr].
    destruct (openai_client W); cbn [pc goto messages trace];
      rewrite requests_app, Hr; simpl; auto.
  - (* the first call *)
    intros [Hm Hr]. rewrite Hr, Hm. cbn [length].
    destruct (create W 0 (first_request initial_messages)) eqn:Hc;
      cbn [pc goto messages trace]; rewrite requests_app, Hr, ?Hm; simpl; auto.
  - (* the reply *)
    intros (Hm & Hr & Hc).
    destruct (choices r) as [|m others] eqn:Hch; cbn [pc goto messages trace];
      rewrite requests_app, Hr, ?Hm; simpl; auto.
    repeat split; auto. exists r, others. auto.
  - (* the branch *)
    intros (Hm & Hr & Hf).
    destruct (wants_tools m) eqn:Hw; cbn [pc goto messages trace];
      rewrite !app_nil_r; auto.
    split; auto. exists m, [], []. repeat split; auto.
  - (* the loop is over *)
    intros (Hr & reply & done & answers & Hf & Hw & Hcalls & Hm & Hans).
    cbn [pc goto messages trace]. rewrite !app_nil_r. split; auto.
    exists reply, answers. rewrite app_nil_r in Hcalls.
    rewrite Hcalls. auto.
  - (* one turn of the loop *)
    intros (Hr & reply & done & answers & Hf & Hw & Hcalls & Hm & Hans).
    destruct (dispatch W (times_invoked "get_current_time" (trace s)) c)
      as [events [text|e]] eqn:Hd;
      destruct (dispatch_events W _ c _ _ Hd) as (Hre & _ & _);
      cbn [pc goto messages trace];
      rewrite !requests_app, Hr, Hre; simpl; auto.
    split; auto.
    exists reply, (done ++ [c]), (answers ++ [tool_message c text]).
    repeat split; auto.
    + rewrite Hcalls, <- app_assoc. reflexivity.
    + rewrite Hm, <- app_assoc. reflexivity.
    + apply Forall2_app; auto. constructor; [|constructor].
      exists text. split; [reflexivity|]. eauto.
  - (* the follow-up call *)
    intros (Hr & _).
    destruct (create W _ _); cbn [pc goto messages trace];
      rewrite requests_app, Hr; simpl; auto.
  - (* the final answer *)
    intros Hr.
    destruct (choices r); cbn [pc goto messages trace];
      rewrite requests_app; simpl; rewrite app_nil_r; lia.
  - (* the answer without tools *)
    intros (Hm & Hr & Hf). cbn [pc goto messages trace].
    rewrite requests_app, Hr. simpl. auto.
  - intros Hr. cbn [pc goto messages trace].
    rewrite requests_app. simpl. rewrite app_nil_r. exact Hr.
  - intros Hr. cbn [pc goto messages trace].
    rewrite requests_app. simpl. rewrite app_nil_r. exact Hr.
  - intros Hr. rewrite Hpc. exact Hr.
Qed.

Lemma invariant_run (n : nat) (s : State) :
  invariant W s -> invariant W (run W n s).
Proof.
  revert s; induction n as [|n IH]; intros s H; simpl; auto.
  apply IH, invariant_step, H.
Qed.

Lemma invariant_main (fuel : nat) : invariant W (main W fuel).
Proof. apply invariant_run, invariant_initial. Qed.

(** Every step but the one of line 82 appends to the messages. *)
Lemma step_appends_after_start (s : State) :
  pc s <> AtStart ->
  exists appended, messages (step W s) = messages s ++ appended.
Proof.
  intros Hstart. unfold step.
  destruct (pc s) as [| | |r|m|[|c rest]| |r|m| |e|code] eqn:Hpc.
  - destruct (check_env W) as [out [code|]]; cbn [goto messages]; eauto.
  - contradiction.
  - destruct (create W _ _); cbn [goto messages]; eauto.
  - destruct (choices r); cbn [goto messages]; eauto.
  - destruct (wants_tools m); cbn [goto messages]; eauto.
  - cbn [goto messages]; eauto.
  - destruct (dispatch W _ c) as [events [text|e]]; cbn [goto messages]; eauto.
  - destruct (create W _ _); cbn [goto messages]; eauto.
  - destruct (choices r); cbn [goto messages]; eauto.
  - cbn [goto messages]; eauto.
  - cbn [goto messages]; eauto.
  - cbn [goto messages]; eauto.
  - exists []. rewrite app_nil_r. reflexivity.
Qed.

(** Line 82 assigns [messages] when it holds nothing yet, so in a run
    every step appends. *)
Lemma step_appends (s : State) :
  invariant W s ->
  exists appended, messages (step W s) = messages s ++ appended.
Proof.
  intros Hinv. destruct (pc s) eqn:Hpc.
  2:{ unfold invariant in Hinv. rewrite Hpc in Hinv. destruct Hinv as [Hm _].
      unfold step. rewrite Hpc.
      destruct (openai_client W); cbn [goto messages]; rewrite Hm;
        eexists; reflexivity. }
  all: apply step_appends_after_start; rewrite Hpc; discriminate.
Qed.

Lemma run_appends (n : nat) (s : State) :
  invariant W s ->
  exists appended, messages (run W n s) = messages s ++ appended.
Proof.
  revert s; induction n as [|n IH]; intros s Hinv; cbn [run].
  - exists []. rewrite app_nil_r. reflexivity.
  - destruct (step_appends s Hinv) as (a1 & H1).
    destruct (IH (step W s) (invariant_step s Hinv)) as (a2 & H2).
    rewrite H2, H1, <- app_assoc. eauto.
Qed.

(** No run makes more than two remote calls. *)
Lemma at_most_two_requests (fuel : nat) :
  length (requests (trace (main W fuel))) <= 2.
Proof.
  pose proof (invariant_main fuel) as H. unfold invariant in H.
  destruct (pc (main W fuel));
    repeat match goal with
           | H : _ /\ _ |- _ => destruct H
           | H : ?x = _ |- context [?x] => rewrite H
           end; simpl; lia.
Qed.

End Invariant.

(** ** The machine's steps, one rule a program point *)

Section Steps.

Variable W : World.
Variables (m : list Message) (t : list Event).

Ltac rule :=
  intros; unfold step, goto, check_env; cbn [pc messages trace];
  repeat match goal with H : _ = _ |- _ => rewrite H end;
  cbn [negb map]; rewrite ?app_nil_r; reflexivity.

Lemma run_S (n : nat) (s : State) : run W (S n) s = run W n (step W s).
Proof. reflexivity. Qed.

Lemma step_check_env_exits :
  truthy_str (getenv W api_key_name) = false ->
  step W {| pc := AtCheckEnv; messages := m; trace := t |} =
  {| pc := Halted 1; messages := m;
     trace := t ++
       [Printed (Text "Error: OPENAI_API_KEY environment variable is not set.");
        Printed (Text "Please set it in the .env file or as an environment variable.")] |}.
Proof. rule. Qed.

Lemma step_check_env_passes :
  truthy_str (getenv W api_key_name) = true ->
  step W {| pc := AtCheckEnv; messages := m; trace := t |} =
  {| pc := AtStart; messages := m; trace := t |}.
Proof. rule. Qed.

Lemma step_start :
  openai_client W = None ->
  step W {| pc := AtStart; messages := m; trace := t |} =
  {| pc := AtFirstCall; messages := initial_messages;
     trace := t ++ [Printed (Text "Starting Use Case 2: Agent with Tool Example")] |}.
Proof. rule. Qed.

Lemma step_start_fails e :
  openai_client W = Some e ->
  step W {| pc := AtStart; messages := m; trace := t |} =
  {| pc := AtHandler e; messages := m;
     trace := t ++ [Printed (Text "Starting Use Case 2: Agent with Tool Example")] |}.
Proof. rule. Qed.

Lemma step_first_call (result : outcome ChatCompletion) :
  create W (length (requests t)) (first_request m) = result ->
  step W {| pc := AtFirstCall; messages := m; trace := t |} =
  {| pc := match result with
           | Returned response => AtReply response
           | Raised e => AtHandler e
           end;
     messages := m;
     trace := t ++ [Requested (first_request m)] |}.
Proof. intros H. destruct result; rule. Qed.

Lemma step_reply response reply others :
  choices response = reply :: others ->
  step W {| pc := AtReply response; messages := m; trace := t |} =
  {| pc := AtBranch reply; messages := m ++ [Reply reply];
     trace := t ++ [Printed (Text (newline ++ "Assistant is thinking...")%string)] |}.
Proof. rule. Qed.

Lemma step_reply_empty response :
  choices response = [] ->
  step W {| pc := AtReply response; messages := m; trace := t |} =
  {| pc := AtHandler IndexError; messages := m; trace := t |}.
Proof. rule. Qed.

Lemma step_branch reply :
  step W {| pc := AtBranch reply; messages := m; trace := t |} =
  {| pc := if wants_tools reply then AtLoop (requested_calls reply)
           else AtNoTools reply;
     messages := m; trace := t |}.
Proof. destruct (wants_tools reply) eqn:H; rule. Qed.

Lemma step_loop_over :
  step W {| pc := AtLoop []; messages := m; trace := t |} =
  {| pc := AtFollowUp; messages := m; trace := t |}.
Proof. rule. Qed.

Lemma step_loop_turn c rest events function_response :
  dispatch W (times_invoked "get_current_time" t) c
    = (events, Returned function_response) ->
  step W {| pc := AtLoop (c :: rest); messages := m; trace := t |} =
  {| pc := AtLoop rest;
     messages := m ++ [tool_message c function_response];
     trace := t ++ events ++
       [Printed (Text ("Tool used: " ++ function_name c)%string)] |}.
Proof. rule. Qed.

Lemma step_loop_raises c rest events e :
  dispatch W (times_invoked "get_current_time" t) c = (events, Raised e) ->
  step W {| pc := AtLoop (c :: rest); messages := m; trace := t |} =
  {| pc := AtHandler e; messages := m; trace := t ++ events |}.
Proof. rule. Qed.

Lemma step_follow_up (result : outcome ChatCompletion) :
  create W (length (requests t)) (follow_up_request m) = result ->
  step W {| pc := AtFollowUp; messages := m; trace := t |} =
  {| pc := match result with
           | Returned response => AtFinal response
           | Raised e => AtHandler e
           end;
     messages := m;
     trace := t ++ [Requested (follow_up_request m)] |}.
Proof. intros H. destruct result; rule. Qed.

Lemma step_final response final others :
  choices response = final :: others ->
  step W {| pc := AtFinal response; messages := m; trace := t |} =
  {| pc := AtDone; messages := m;
     trace := t ++ [Printed (Text (newline ++ "Final Agent Response:")%string);
                    Printed (Text (str_opt (content final)))] |}.
Proof. rule. Qed.

Lemma step_final_empty response :
  choices response = [] ->
  step W {| pc := AtFinal response; messages := m; trace := t |} =
  {| pc := AtHandler IndexError; messages := m;
     trace := t ++ [Printed (Text (newline ++ "Final Agent Response:")%string)] |}.
Proof. rule. Qed.

Lemma step_no_tools reply :
  step W {| pc := AtNoTools reply; messages := m; trace := t |} =
  {| pc := AtDone; messages := m;
     trace := t ++
       [Printed (Text (newline ++ "Agent Response (no tools used):")%string);
        Printed (Text (str_opt (content reply)))] |}.
Proof. rule. Qed.

Lemma step_done :
  step W {| pc := AtDone; messages := m; trace := t |} =
  {| pc := Halted 0; messages := m;
     trace := t ++
       [Printed (Text (newline ++ "Use Case 2 completed successfully.")%string)] |}.
Proof. rule. Qed.

Lemma step_handler e :
  step W {| pc := AtHandler e; messages := m; trace := t |} =
  {| pc := Halted 1; messages := m; trace := t ++ [Printed (ErrorReport e)] |}.
Proof. rule. Qed.

End Steps.

(** ** Runs *)

Section Runs.

Variable W : World.

Lemma no_calls_no_tools (reply : ChatCompletionMessage) :
  requested_calls reply = [] <-> wants_tools reply = false.
Proof.
  unfold requested_calls, wants_tools.
  destruct (tool_calls reply) as [[|c rest]|]; split; intros H;
    try reflexivity; discriminate.
Qed.

Lemma winding_down_step (s : State) :
  winding_down s = true ->
  winding_down (step W s) = true /\
  messages (step W s) = messages s /\
  requests (trace (step W s)) = requests (trace s) /\
  invocations (trace (step W s)) = invocations (trace s).
Proof.
  unfold winding_down, step.
  destruct (pc s) as [| | |r|m|[|c rest]| |r|m| |e|code] eqn:Hpc;
    try discriminate; intros _.
  - destruct (choices r); cbn [pc goto messages trace];
      rewrite requests_app, invocations_app, !app_nil_r; auto.
  - cbn [pc goto messages trace].
    rewrite requests_app, invocations_app, !app_nil_r; auto.
  - cbn [pc goto messages trace].
    rewrite requests_app, invocations_app, !app_nil_r; auto.
  - cbn [pc goto messages trace].
    rewrite requests_app, invocations_app, !app_nil_r; auto.
  - rewrite Hpc. auto.
Qed.

Lemma winding_down_run (n : nat) (s : State) :
  winding_down s = true ->
  messages (run W n s) = messages s /\
  requests (trace (run W n s)) = requests (trace s) /\
  invocations (trace (run W n s)) = invocations (trace s).
Proof.
  revert s; induction n as [|n IH]; intros s H; cbn [run]; auto.
  destruct (winding_down_step s H) as (H' & Hm & Hr & Hi).
  destruct (IH _ H') as (Hm' & Hr' & Hi').
  rewrite Hm', Hr', Hi'. auto.
Qed.

(** With the credential set and a first reply, a run gets to line 102. *)
Lemma reaches_branch response reply others :
  truthy_str (getenv W api_key_name) = true ->
  openai_client W = None ->
  create W 0 (first_request initial_messages) = Returned response ->
  choices response = reply :: others ->
  main W 4 = {| pc := AtBranch reply;
                messages := initial_messages ++ [Reply reply];
                trace := opening_trace |}.
Proof.
  intros Hkey Hclient Hcreate Hchoices. unfold main, initial. rewrite !run_S.
  rewrite step_check_env_passes by assumption.
  rewrite step_start by assumption.
  rewrite (step_first_call W _ _ (Returned response)) by assumption.
  rewrite (step_reply W _ _ response reply others) by assumption.
  reflexivity.
Qed.

(** *** Every run halts *)













End Runs.

(** * The claims *)

(** C3.  When the first reply carries no tool-call request (its
    [tool_calls] is [None] or empty), the run ends with status 0 after
    printing the reply's content as it is; at no point of the run is a
    local tool function entered, and the first request stays the only
    remote call. *)
Theorem C3_reply_without_tool_calls
  (W : World) (response : ChatCompletion)
  (reply : ChatCompletionMessage) (others : list ChatCompletionMessage) :
  truthy_str (getenv W api_key_name) = true ->
  openai_client W = None ->
  create W 0 (first_request initial_messages) = Returned response ->
  choices response = reply :: others ->
  requested_calls reply = [] ->
  (forall fuel, 7 <= fuel ->
     main W fuel =
       {| pc := Halted 0;
          messages := initial_messages ++ [Reply reply];
          trace := opening_trace ++
            [Printed (Text (newline ++ "Agent Response (no tools used):")%string);
             Printed (Text (str_opt (content reply)));
             Printed (Text (newline ++ "Use Case 2 completed successfully.")%string)] |}) /\
  (forall fuel, invocations (trace (main W fuel)) = []) /\
  (forall fuel, 7 <= fuel ->
     requests (trace (main W fuel)) = [first_request initial_messages]) /\
  (forall fuel, length (requests (trace (main W fuel))) <= 1).
Proof.
  intros Hkey Hclient Hcreate Hchoices Hnone.
  apply no_calls_no_tools in Hnone.
  pose proof (reaches_branch W response reply others Hkey Hclient Hcreate Hchoices)
    as H4.
  assert (H7 : main W 7 =
       {| pc := Halted 0;
          messages := initial_messages ++ [Reply reply];
          trace := opening_trace ++
            [Printed (Text (newline ++ "Agent Response (no tools used):")%string);
             Printed (Text (str_opt (content reply)));
             Printed (Text (newline ++ "Use Case 2 completed successfully.")%string)] |}).
  { unfold main in *.
    rewrite (run_add W 4 3 initial : run W 7 initial = run W 3 (run W 4 initial)).
    rewrite H4, !run_S.
    rewrite step_branch, Hnone, step_no_tools, step_done.
    cbn [run]. rewrite <- !app_assoc. reflexivity. }
  assert (Hall : forall fuel, 7 <= fuel -> main W fuel = main W 7).
  { intros fuel Hle. apply main_settled with 0%Z; [|exact Hle].
    rewrite H7. reflexivity. }
  assert (Hbefore : forall fuel, exists later,
             trace (main W 7) = trace (main W fuel) ++ later).
  { intros fuel. apply trace_before_halt with 0%Z. rewrite H7. reflexivity. }
  repeat split.
  - intros fuel Hle. rewrite (Hall fuel Hle). exact H7.
  - intros fuel. destruct (Hbefore fuel) as [later Hl].
    apply (f_equal invocations) in Hl. rewrite invocations_app, H7 in Hl.
    cbn in Hl. symmetry in Hl. apply app_eq_nil in Hl. tauto.
  - intros fuel Hle. rewrite (Hall fuel Hle), H7. reflexivity.
  - intros fuel. destruct (Hbefore fuel) as [later Hl].
    apply (f_equal (fun t => length (requests t))) in Hl.
    rewrite requests_app, length_app, H7 in Hl. cbn in Hl. lia.
Qed.

Lemma use_case_1_halted (W : World) (n : nat) (s : UseCase1.State) (code : Z) :
  UseCase1.pc s = UseCase1.Halted code -> UseCase1.run W n s = s.
Proof.
  intros H. induction n as [|n IH]; cbn [UseCase1.run]; [reflexivity|].
  replace (UseCase1.step W s) with s; [exact IH|].
  unfold UseCase1.step. rewrite H. reflexivity.
Qed.

(** C8.  When the credential is absent from the environment, each script
    prints the two lines of [check_env] and stops with status 1 in its
    first step; at no point of the run is a remote call made. *)
Theorem C8_missing_credential_stops_before_any_call (W : World) :
  getenv W api_key_name = None ->
  (forall fuel, 1 <= fuel ->
     main W fuel =
       {| pc := Halted 1; messages := [];
          trace :=
            [Printed (Text "Error: OPENAI_API_KEY environment variable is not set.");
             Printed (Text "Please set it in the .env file or as an environment variable.")] |}) /\
  (forall fuel, requests (trace (main W fuel)) = []) /\
  (forall fuel, 1 <= fuel ->
     UseCase1.main W fuel =
       {| UseCase1.pc := UseCase1.Halted 1;
          UseCase1.trace :=
            [Printed (Text "Error: OPENAI_API_KEY environment variable is not set.");
             Printed (Text "Please set it in the .env file or as an environment variable.")] |}) /\
  (forall fuel, requests (UseCase1.trace (UseCase1.main W fuel)) = []).
Proof.
  intros Hkey.
  assert (H1 : main W 1 =
       {| pc := Halted 1; messages := [];
          trace :=
            [Printed (Text "Error: OPENAI_API_KEY environment variable is not set.");
             Printed (Text "Please set it in the .env file or as an environment variable.")] |}).
  { unfold main, initial. rewrite run_S, step_check_env_exits.
    - reflexivity.
    - rewrite Hkey. reflexivity. }
  assert (H2 : forall fuel, 1 <= fuel -> main W fuel = main W 1).
  { intros fuel Hle. apply main_settled with 1%Z; [|exact Hle].
    rewrite H1. reflexivity. }
  assert (U1 : UseCase1.main W 1 =
       {| UseCase1.pc := UseCase1.Halted 1;
          UseCase1.trace :=
            [Printed (Text "Error: OPENAI_API_KEY environment variable is not set.");
             Printed (Text "Please set it in the .env file or as an environment variable.")] |}).
  { unfold UseCase1.main, UseCase1.initial. cbn [UseCase1.run].
    unfold UseCase1.step, UseCase1.check_env. cbn [UseCase1.pc].
    rewrite Hkey. reflexivity. }
  assert (U2 : forall fuel, 1 <= fuel -> UseCase1.main W fuel = UseCase1.main W 1).
  { intros fuel Hle. destruct fuel as [|fuel]; [lia|].
    unfold UseCase1.main in *. cbn [UseCase1.run] in *.
    apply use_case_1_halted with 1%Z. rewrite U1. reflexivity. }
  repeat split.
  - intros fuel Hle. rewrite (H2 fuel Hle). exact H1.
  - intros [|fuel]; [reflexivity|].
    rewrite (H2 (S fuel)) by lia. rewrite H1. reflexivity.
  - intros fuel Hle. rewrite (U2 fuel Hle). exact U1.
  - intros [|fuel]; [reflexivity|].
    rewrite (U2 (S fuel)) by lia. rewrite U1. reflexivity.
Qed.

(** C1, as amended.  When the first reply carries N >= 1 tool-call
    requests and the arguments of each of them decode (to a dict for a
    [get_weather] request), the loop dispatches each request once, in the
    order of the reply: one "Tool used" line a request, one entry into the
    local function for each request that names an implemented one, and then
    the follow-up request is sent.  From then on the run has made these two
    remote calls and no other, and no further invocation; no run makes more
    than two remote calls. *)
Theorem C1_dispatches_in_order_then_one_follow_up
  (W : World) (response : ChatCompletion)
  (reply : ChatCompletionMessage) (others : list ChatCompletionMessage) :
  truthy_str (getenv W api_key_name) = true ->
  openai_client W = None ->
  create W 0 (first_request initial_messages) = Returned response ->
  choices response = reply :: others ->
  wants_tools reply = true ->
  Forall (decodes_for_dispatch W) (requested_calls reply) ->
  exists events answers,
    dispatch_all W 0 (requested_calls reply) = (events, answers, None) /\
    printed events =
      map (fun c => Text ("Tool used: " ++ function_name c)%string)
        (requested_calls reply) /\
    map fst (invocations events) =
      filter implemented (map function_name (requested_calls reply)) /\
    trace (main W (length (requested_calls reply) + 7)) =
      opening_trace ++ events ++
      [Requested (follow_up_request (initial_messages ++ Reply reply :: answers))] /\
    (forall fuel, length (requested_calls reply) + 7 <= fuel ->
       requests (trace (main W fuel)) =
         [first_request initial_messages;
          follow_up_request (initial_messages ++ Reply reply :: answers)] /\
       invocations (trace (main W fuel)) = invocations events) /\
    (forall fuel, length (requests (trace (main W fuel))) <= 2).
Proof.
  intros Hkey Hclient Hcreate Hchoices Hwants Hdecodes.
  pose proof (reaches_branch W response reply others Hkey Hclient Hcreate Hchoices)
    as H4.
  destruct (dispatch_all_decodes W _ Hdecodes 0)
    as (events & answers & Hall & Hreq & Hprinted & Hinvoked & _).
  exists events, answers.
  set (calls := requested_calls reply) in *.
  set (follow_up :=
         follow_up_request (initial_messages ++ Reply reply :: answers)).
  (* the state after the follow-up request is sent *)
  assert (Hsent : exists p,
             winding_down
               {| pc := p; messages := initial_messages ++ Reply reply :: answers;
                  trace := opening_trace ++ events ++ [Requested follow_up] |}
             = true /\
             main W (length calls + 7) =
               {| pc := p; messages := initial_messages ++ Reply reply :: answers;
                  trace := opening_trace ++ events ++ [Requested follow_up] |}).
  { pose proof (loop_agrees W calls
                  {| pc := AtLoop calls;
                     messages := initial_messages ++ [Reply reply];
                     trace := opening_trace |} events answers None eq_refl Hall)
      as Hloop.
    cbv beta iota in Hloop. unfold goto in Hloop. cbn [messages trace] in Hloop.
    exists (match create W (length (requests (opening_trace ++ events)))
                    follow_up with
            | Returned r => AtFinal r
            | Raised e => AtHandler e
            end).
    split.
    - unfold winding_down. cbn [pc]. destruct (create W _ follow_up); reflexivity.
    - unfold main in H4 |- *.
      replace (length calls + 7) with (4 + (1 + (length calls + 2))) by lia.
      rewrite (run_add W 4), H4.
      rewrite (run_add W 1). cbn [run].
      rewrite step_branch, Hwants. fold calls.
      rewrite (run_add W (length calls)), Hloop. cbn [run].
      rewrite step_loop_over.
      rewrite (step_follow_up W _ _ _ eq_refl).
      rewrite <- !app_assoc. reflexivity. }
  destruct Hsent as (p & Hwind & Hmain).
  repeat split; auto.
  - rewrite Hmain. reflexivity.
  - unfold main in *.
    replace fuel with (length calls + 7 + (fuel - (length calls + 7))) by lia.
    rewrite run_add, Hmain.
    destruct (winding_down_run W (fuel - (length calls + 7)) _ Hwind)
      as (_ & Hr & _).
    rewrite Hr. cbn [trace]. rewrite !requests_app, Hreq. reflexivity.
  - unfold main in *.
    replace fuel with (length calls + 7 + (fuel - (length calls + 7))) by lia.
    rewrite run_add, Hmain.
    destruct (winding_down_run W (fuel - (length calls + 7)) _ Hwind)
      as (_ & _ & Hi).
    rewrite Hi. cbn [trace]. rewrite !invocations_app.
    cbn [opening_trace invocations app]. rewrite app_nil_r. reflexivity.
  - apply at_most_two_requests.
Qed.

(** Two steps from the handler's door: the report and the exit. *)
Lemma raised_run_halts (W : World) (m : list Message) (t : list Event)
  (c : ToolCall) (rest : list ToolCall) (e : exn) :
  dispatch W (times_invoked "get_current_time" t) c = ([], Raised e) ->
  forall fuel, 2 <= fuel ->
    run W fuel {| pc := AtLoop (c :: rest); messages := m; trace := t |} =
    {| pc := Halted 1; messages := m; trace := t ++ [Printed (ErrorReport e)] |}.
Proof.
  intros Hd fuel Hle. replace fuel with (2 + (fuel - 2)) by lia.
  rewrite run_add. cbn [run Nat.add].
  rewrite (step_loop_raises W m t c rest [] e Hd), app_nil_r, step_handler.
  apply run_halted with 1%Z. reflexivity.
Qed.

(** C2, as amended.  When the arguments of a tool-call request are not
    JSON, [json.loads] raises: dispatch returns nothing, no local function
    is entered and no message is appended for the request; the exception
    goes to the handler of line 142, which reports it, and the run exits
    with status 1 without any further remote call. *)
Theorem C2_malformed_arguments_end_the_run
  (W : World) (s : State) (c : ToolCall) (rest : list ToolCall) :
  pc s = AtLoop (c :: rest) ->
  json_loads W (arguments c) = None ->
  (forall clock, dispatch W clock c = ([], Raised JSONDecodeError)) /\
  step W s =
    {| pc := AtHandler JSONDecodeError;
       messages := messages s; trace := trace s |} /\
  (forall fuel, 2 <= fuel ->
     run W fuel s =
       {| pc := Halted 1; messages := messages s;
          trace := trace s ++ [Printed (ErrorReport JSONDecodeError)] |}).
Proof.
  intros Hpc Hbad. destruct s as [p m t]. cbn [pc] in Hpc. subst p.
  cbn [messages trace].
  assert (Hd : forall clock, dispatch W clock c = ([], Raised JSONDecodeError))
    by (intros; apply dispatch_malformed; exact Hbad).
  repeat split; auto.
  - rewrite (step_loop_raises W m t c rest [] _ (Hd _)), app_nil_r. reflexivity.
  - apply raised_run_halts, Hd.
Qed.

(** C4, as amended.  For a tool-call request whose function name is
    neither [get_current_time] nor [get_weather] and whose arguments are
    JSON, dispatch enters no local function and returns the text
    "Error: Function <name> not implemented"; the tool message with that
    text is appended, and the loop goes on with the remaining requests, to
    the follow-up request when none is left. *)
Theorem C4_unknown_function_yields_error_text
  (W : World) (s : State) (c : ToolCall) (rest : list ToolCall) (v : json) :
  pc s = AtLoop (c :: rest) ->
  function_name c <> "get_current_time"%string ->
  function_name c <> "get_weather"%string ->
  json_loads W (arguments c) = Some v ->
  (forall clock,
     dispatch W clock c =
       ([], Returned ("Error: Function " ++ function_name c ++ " not implemented")%string)) /\
  step W s =
    {| pc := AtLoop rest;
       messages := messages s ++
         [ToolDict (call_id c) (function_name c)
            ("Error: Function " ++ function_name c ++ " not implemented")%string];
       trace := trace s ++
         [Printed (Text ("Tool used: " ++ function_name c)%string)] |} /\
  (rest = [] ->
     pc (run W 2 s) = AtFollowUp /\
     trace (run W 3 s) =
       trace s ++
         [Printed (Text ("Tool used: " ++ function_name c)%string);
          Requested
            (follow_up_request
               (messages s ++
                  [ToolDict (call_id c) (function_name c)
                     ("Error: Function " ++ function_name c ++ " not implemented")%string]))]).
Proof.
  intros Hpc H1 H2 Hv. destruct s as [p m t]. cbn [pc] in Hpc. subst p.
  cbn [messages trace].
  assert (Hd : forall clock,
     dispatch W clock c =
       ([], Returned ("Error: Function " ++ function_name c ++ " not implemented")%string))
    by (intros; apply dispatch_unknown with v; assumption).
  assert (Hstep :
    step W {| pc := AtLoop (c :: rest); messages := m; trace := t |} =
    {| pc := AtLoop rest;
       messages := m ++
         [ToolDict (call_id c) (function_name c)
            ("Error: Function " ++ function_name c ++ " not implemented")%string];
       trace := t ++ [Printed (Text ("Tool used: " ++ function_name c)%string)] |}).
  { rewrite (step_loop_turn W m t c rest [] _ (Hd _)). reflexivity. }
  repeat split; auto.
  - subst rest. rewrite !run_S, Hstep, step_loop_over. reflexivity.
  - subst rest. rewrite !run_S, Hstep, step_loop_over.
    rewrite (step_follow_up W _ _ _ eq_refl). cbn [run trace].
    rewrite <- app_assoc. reflexivity.
Qed.

(** C10.  For a [get_weather] request whose arguments are JSON but no
    object, [function_args.get] raises [AttributeError]: dispatch returns
    nothing and enters no function, no message is appended for the request,
    and the run goes through the handler of line 142 to exit status 1.
    Dispatch of a [get_weather] request with JSON arguments returns exactly
    when they decode to an object. *)
Theorem C10_get_weather_needs_an_object
  (W : World) (s : State) (c : ToolCall) (rest : list ToolCall) (v : json) :
  pc s = AtLoop (c :: rest) ->
  function_name c = "get_weather"%string ->
  json_loads W (arguments c) = Some v ->
  (forall d, v <> JObj d) ->
  (forall clock,
     dispatch W clock c = ([], Raised (AttributeError (type_name v)))) /\
  step W s =
    {| pc := AtHandler (AttributeError (type_name v));
       messages := messages s; trace := trace s |} /\
  (forall fuel, 2 <= fuel ->
     run W fuel s =
       {| pc := Halted 1; messages := messages s;
          trace := trace s ++
            [Printed (ErrorReport (AttributeError (type_name v)))] |}) /\
  (forall clock c' v',
     function_name c' = "get_weather"%string ->
     json_loads W (arguments c') = Some v' ->
     ((exists events function_response,
         dispatch W clock c' = (events, Returned function_response)) <->
      (exists d, v' = JObj d))).
Proof.
  intros Hpc Hname Hv Hnot. destruct s as [p m t]. cbn [pc] in Hpc. subst p.
  cbn [messages trace].
  assert (Hd : forall clock,
     dispatch W clock c = ([], Raised (AttributeError (type_name v)))).
  { intros clock. rewrite (dispatch_weather W clock c v Hv Hname).
    rewrite (py_get_raises v _ _ Hnot). reflexivity. }
  split; [exact Hd|]. split; [|split].
  - rewrite (step_loop_raises W m t c rest [] _ (Hd _)), app_nil_r. reflexivity.
  - apply raised_run_halts, Hd.
  - intros clock c' v' Hname' Hv'. split.
    + intros (events & text & H).
      rewrite (dispatch_weather W clock c' v' Hv' Hname') in H.
      apply (py_get_returns v' "location" (JStr "New York")).
      destruct (py_get v' "location" (JStr "New York")) as [location|e];
        [eauto|discriminate].
    + intros Hobj.
      apply (py_get_returns v' "location" (JStr "New York")) in Hobj.
      destruct Hobj as [location Hl].
      rewrite (dispatch_weather W clock c' v' Hv' Hname'), Hl. eauto.
Qed.

Lemma answers_are_tool_messages (W : World) (calls : list ToolCall)
  (answers : list Message) :
  Forall2 (answers_to W) calls answers ->
  filter is_tool_message answers = answers /\
  (forall i c, nth_error calls i = Some c ->
     exists function_response,
       nth_error answers i =
         Some (ToolDict (call_id c) (function_name c) function_response)).
Proof.
  induction 1 as [|c m calls answers Hcm _ [IHf IHn]]; split.
  - reflexivity.
  - intros [|i] c H; discriminate.
  - destruct Hcm as (text & -> & _). cbn [filter is_tool_message].
    rewrite IHf. reflexivity.
  - intros [|i] c' Hc'; cbn [nth_error] in *.
    + inversion Hc'; subst. destruct Hcm as (text & -> & _). eauto.
    + apply IHn, Hc'.
Qed.

(** C5.  When the run stands before the follow-up request (line 127), the
    messages are the initial ones, the assistant reply, and one tool message
    for each tool-call request of the reply, in the order of the requests
    and nothing else: the i-th tool message echoes the id and the function
    name of the i-th request and carries what its dispatch returned. *)
Theorem C5_each_request_has_its_tool_message (W : World) (fuel : nat) :
  pc (main W fuel) = AtFollowUp ->
  exists reply answers,
    first_reply W reply /\
    messages (main W fuel) = initial_messages ++ Reply reply :: answers /\
    filter is_tool_message (messages (main W fuel)) = answers /\
    length answers = length (requested_calls reply) /\
    Forall2 (answers_to W) (requested_calls reply) answers /\
    (forall i c, nth_error (requested_calls reply) i = Some c ->
       exists function_response,
         nth_error answers i =
           Some (ToolDict (call_id c) (function_name c) function_response)).
Proof.
  intros Hpc. pose proof (invariant_main W fuel) as Hinv.
  unfold invariant in Hinv. rewrite Hpc in Hinv.
  destruct Hinv as (_ & reply & answers & Hfirst & _ & Hm & Hans).
  destruct (answers_are_tool_messages W _ _ Hans) as [Hfilter Hnth].
  exists reply, answers. repeat split; auto.
  - rewrite Hm, filter_app. cbn [filter initial_messages is_tool_message app].
    exact Hfilter.
  - symmetry. eapply Forall2_length, Hans.
Qed.

(** C6.  When the run stands before the follow-up request, the request it
    sends next carries the model name and the whole of the messages (the
    initial ones, the assistant reply, the tool messages in the order of
    the requests) and neither a tool catalog nor a tool choice; it is the
    second and last remote call of the run; and when the service answers
    it, the content of the first choice is printed as the final answer and
    the run ends with status 0. *)
Theorem C6_follow_up_request_and_final_answer (W : World) (fuel : nat) :
  pc (main W fuel) = AtFollowUp ->
  exists reply answers,
    first_reply W reply /\
    wants_tools reply = true /\
    Forall2 (answers_to W) (requested_calls reply) answers /\
    requests (trace (main W (S fuel))) =
      [first_request initial_messages;
       {| model := "gpt-3.5-turbo";
          req_messages := initial_messages ++ Reply reply :: answers;
          req_tools := None;
          tool_choice := None |}] /\
    (forall n, length (requests (trace (main W n))) <= 2) /\
    (forall final_response final others more,
       create W 1
         {| model := "gpt-3.5-turbo";
            req_messages := initial_messages ++ Reply reply :: answers;
            req_tools := None;
            tool_choice := None |} = Returned final_response ->
       choices final_response = final :: others ->
       3 <= more ->
       main W (fuel + more) =
         {| pc := Halted 0;
            messages := initial_messages ++ Reply reply :: answers;
            trace := trace (main W fuel) ++
              [Requested
                 {| model := "gpt-3.5-turbo";
                    req_messages := initial_messages ++ Reply reply :: answers;
                    req_tools := None;
                    tool_choice := None |};
               Printed (Text (newline ++ "Final Agent Response:")%string);
               Printed (Text (str_opt (content final)));
               Printed (Text (newline ++ "Use Case 2 completed successfully.")%string)] |}).
Proof.
  intros Hpc. pose proof (invariant_main W fuel) as Hinv.
  unfold invariant in Hinv. rewrite Hpc in Hinv.
  destruct Hinv as (Hreq & reply & answers & Hfirst & Hwants & Hm & Hans).
  exists reply, answers.
  unfold main in *. remember (run W fuel initial) as s eqn:Hs.
  destruct s as [p m t]. cbn [pc messages trace] in *. subst p m.
  split; [exact Hfirst|]. split; [exact Hwants|]. split; [exact Hans|].
  split; [|split].
  - rewrite run_last, <- Hs. rewrite (step_follow_up W _ _ _ eq_refl).
    cbn [trace]. rewrite requests_app, Hreq. reflexivity.
  - intros n. apply at_most_two_requests.
  - intros final_response final others more Hcreate Hchoices Hmore.
    rewrite run_add, <- Hs.
    replace more with (3 + (more - 3)) by lia. rewrite run_add.
    cbn [run Nat.add].
    rewrite (step_follow_up W _ _ (Returned final_response)).
    2:{ rewrite Hreq. exact Hcreate. }
    rewrite (step_final W _ _ final_response final others Hchoices), step_done.
    rewrite run_halted with (code := 0%Z) by reflexivity.
    rewrite <- !app_assoc. reflexivity.
Qed.

(** C9.  The messages of a run only grow at the end.  Line 82, which
    creates the list, is the one step that assigns it, and it does so when
    the list holds nothing yet; every other step of the machine, from any
    state, leaves the messages as they are or appends to them.  So each
    step of a run appends, and the messages of any state of a run are a
    prefix of the messages of every later state. *)
Theorem C9_messages_are_append_only (W : World) :
  (forall s, pc s <> AtStart ->
     exists appended, messages (step W s) = messages s ++ appended) /\
  (forall fuel, exists appended,
     messages (main W (S fuel)) = messages (main W fuel) ++ appended) /\
  (forall fuel more, exists appended,
     messages (main W (fuel + more)) = messages (main W fuel) ++ appended) /\
  (forall fuel more,
     firstn (length (messages (main W fuel))) (messages (main W (fuel + more)))
     = messages (main W fuel)).
Proof.
  assert (Hrun : forall fuel more, exists appended,
     messages (main W (fuel + more)) = messages (main W fuel) ++ appended).
  { intros fuel more. unfold main. rewrite run_add.
    apply run_appends. apply invariant_main. }
  split; [|split; [|split]].
  - apply step_appends_after_start.
  - intros fuel. unfold main. rewrite run_last.
    apply step_appends. apply invariant_main.
  - exact Hrun.
  - intros fuel more. destruct (Hrun fuel more) as [a H]. rewrite H.
    rewrite firstn_app, firstn_all, Nat.sub_diag. cbn [firstn].
    apply app_nil_r.
Qed.

(** C7.  [get_weather] puts the location into one fixed sentence, a call
    without the argument and a request without the key both use
    "New York", and a dispatch makes no remote call.  The sentence is not
    the one of the claim: between [72] and [F] the source has the two
    characters U+00C2 U+00B0 where the degree sign U+00B0 alone was meant. *)
Theorem C7_get_weather_sentence (W : World) :
  (forall L,
     get_weather W (Some (JStr L)) =
       ("The weather in " ++ L ++ " is currently sunny and 72"
        ++ source_degree ++ "F.")%string) /\
  get_weather W None = get_weather W (Some (JStr "New York")) /\
  (forall clock c d,
     function_name c = "get_weather"%string ->
     json_loads W (arguments c) = Some (JObj d) ->
     dict_lookup d "location" = None ->
     dispatch W clock c =
       ([Invoked "get_weather" [JStr "New York"]],
        Returned (get_weather W (Some (JStr "New York"))))) /\
  (forall clock c events result,
     dispatch W clock c = (events, result) -> requests events = []) /\
  get_weather W (Some (JStr "Tokyo")) <>
    ("The weather in Tokyo is currently sunny and 72" ++ degree_sign ++ "F.")%string.
Proof.
  split; [|split; [|split; [|split]]].
  - intros L. reflexivity.
  - reflexivity.
  - intros clock c d Hname Hv Hnone.
    rewrite (dispatch_weather W clock c _ Hv Hname). cbn [py_get].
    rewrite Hnone. reflexivity.
  - intros clock c events result H.
    apply (dispatch_events W clock c events result H).
  - intros H. apply (f_equal String.length) in H. vm_compute in H.
    discriminate.
Qed.

(** ** The claims on sample runs *)

Lemma messages_before_halt (W : World) (n fuel : nat) (code : Z) :
  pc (main W n) = Halted code ->
  exists appended, messages (main W n) = messages (main W fuel) ++ appended.
Proof.
  intros H. unfold main in *.
  destruct (Nat.le_gt_cases n fuel) as [Hle|Hgt].
  - exists []. rewrite (run_settled W n fuel _ code H Hle), app_nil_r. reflexivity.
  - replace n with (fuel + (n - fuel)) by lia. rewrite run_add.
    apply run_appends. apply invariant_main.
Qed.

(** C3 on the run in which the model answers at once. *)
Lemma C3_witness :
  requested_calls (says "I cannot tell the time.") = [] /\
  main plain_world 7 =
    {| pc := Halted 0;
       messages := initial_messages ++ [Reply (says "I cannot tell the time.")];
       trace := opening_trace ++
         [Printed (Text (newline ++ "Agent Response (no tools used):")%string);
          Printed (Text "I cannot tell the time.");
          Printed (Text (newline ++ "Use Case 2 completed successfully.")%string)] |} /\
  requests (trace (main plain_world 7)) = [first_request initial_messages].
Proof.
  pose proof (C3_reply_without_tool_calls plain_world
                {| choices := [says "I cannot tell the time."] |}
                (says "I cannot tell the time.") []
                eq_refl eq_refl eq_refl eq_refl eq_refl) as (Hstate & _ & Hreq & _).
  split; [reflexivity|]. split.
  - exact (Hstate 7 (le_n 7)).
  - exact (Hreq 7 (le_n 7)).
Defined.

(** C8 on the run without a credential. *)
Lemma C8_witness :
  getenv bare_world api_key_name = None /\
  pc (main bare_world 1) = Halted 1 /\
  requests (trace (main bare_world 12)) = [] /\
  UseCase1.pc (UseCase1.main bare_world 1) = UseCase1.Halted 1 /\
  requests (UseCase1.trace (UseCase1.main bare_world 12)) = [].
Proof.
  pose proof (C8_missing_credential_stops_before_any_call bare_world eq_refl)
    as (H2 & Hnone2 & H1 & Hnone1).
  split; [reflexivity|]. split; [|split; [|split]].
  - rewrite (H2 1 (le_n 1)). reflexivity.
  - exact (Hnone2 12).
  - rewrite (H1 1 (le_n 1)). reflexivity.
  - exact (Hnone1 12).
Defined.

Lemma tokyo_calls_decode :
  Forall (decodes_for_dispatch tokyo_world) [time_call; tokyo_call].
Proof.
  constructor; [|constructor; [|constructor]].
  - exists (JObj []). split; [reflexivity|]. intros _. eauto.
  - exists (JObj [("location"%string, JStr "Tokyo")]).
    split; [vm_compute; reflexivity|]. intros _. eauto.
Defined.

(** C1, as amended, on the run the script was written for: both tools are
    entered, in the order of the requests, then the follow-up is sent. *)
Lemma C1_witness :
  Forall (decodes_for_dispatch tokyo_world)
    (requested_calls (asks [time_call; tokyo_call])) /\
  exists events answers,
    map fst (invocations events) = ["get_current_time"; "get_weather"]%string /\
    printed events =
      [Text "Tool used: get_current_time"; Text "Tool used: get_weather"] /\
    trace (main tokyo_world (length (requested_calls (asks [time_call; tokyo_call])) + 7)) =
      opening_trace ++ events ++
      [Requested
         (follow_up_request
            (initial_messages ++ Reply (asks [time_call; tokyo_call]) :: answers))].
Proof.
  split; [exact tokyo_calls_decode|].
  destruct (C1_dispatches_in_order_then_one_follow_up tokyo_world
              {| choices := [asks [time_call; tokyo_call]] |}
              (asks [time_call; tokyo_call]) []
              eq_refl eq_refl eq_refl eq_refl eq_refl tokyo_calls_decode)
    as (events & answers & _ & Hprinted & Hinvoked & Htrace & _).
  exists events, answers. split; [exact Hinvoked|]. split; [exact Hprinted|].
  exact Htrace.
Defined.

(** C2, as amended, on the run whose only tool call has its arguments cut
    off. *)
Lemma C2_witness :
  pc (main cut_off_only_world 5) = AtLoop [cut_off_call] /\
  json_loads cut_off_only_world (arguments cut_off_call) = None /\
  run cut_off_only_world 2 (main cut_off_only_world 5) =
    {| pc := Halted 1;
       messages := messages (main cut_off_only_world 5);
       trace := trace (main cut_off_only_world 5) ++
                [Printed (ErrorReport JSONDecodeError)] |}.
Proof.
  assert (Hpc : pc (main cut_off_only_world 5) = AtLoop [cut_off_call])
    by (vm_compute; reflexivity).
  assert (Hbad : json_loads cut_off_only_world (arguments cut_off_call) = None)
    by (vm_compute; reflexivity).
  split; [exact Hpc|]. split; [exact Hbad|].
  exact (proj2 (proj2 (C2_malformed_arguments_end_the_run cut_off_only_world
                         (main cut_off_only_world 5) cut_off_call [] Hpc Hbad))
           2 (le_n 2)).
Defined.

(** C4, as amended, on the run that asks for a function outside the catalog
    with arguments that are JSON. *)
Lemma C4_witness :
  pc (main stock_json_world 5) = AtLoop [stock_call_json] /\
  step stock_json_world (main stock_json_world 5) =
    {| pc := AtLoop [];
       messages := messages (main stock_json_world 5) ++
         [ToolDict "call_1" "get_stock_price"
            "Error: Function get_stock_price not implemented"];
       trace := trace (main stock_json_world 5) ++
         [Printed (Text "Tool used: get_stock_price")] |} /\
  pc (run stock_json_world 2 (main stock_json_world 5)) = AtFollowUp.
Proof.
  assert (Hpc : pc (main stock_json_world 5) = AtLoop [stock_call_json])
    by (vm_compute; reflexivity).
  assert (Hv : json_loads stock_json_world (arguments stock_call_json) =
               Some (JObj [("symbol"%string, JStr "ACME")]))
    by (vm_compute; reflexivity).
  assert (H1 : function_name stock_call_json <> "get_current_time"%string)
    by (cbn; discriminate).
  assert (H2 : function_name stock_call_json <> "get_weather"%string)
    by (cbn; discriminate).
  destruct (C4_unknown_function_yields_error_text stock_json_world
              (main stock_json_world 5) stock_call_json [] _ Hpc H1 H2 Hv)
    as (_ & Hstep & Hlast).
  split; [exact Hpc|]. split; [exact Hstep|].
  exact (proj1 (Hlast eq_refl)).
Defined.

(** C10 on the run whose [get_weather] call has an array for arguments. *)
Lemma C10_witness :
  pc (main array_world 5) = AtLoop [array_call] /\
  json_loads array_world (arguments array_call) = Some (JArr [JStr "Tokyo"]) /\
  run array_world 2 (main array_world 5) =
    {| pc := Halted 1;
       messages := messages (main array_world 5);
       trace := trace (main array_world 5) ++
                [Printed (ErrorReport (AttributeError "list"))] |}.
Proof.
  assert (Hpc : pc (main array_world 5) = AtLoop [array_call])
    by (vm_compute; reflexivity).
  assert (Hv : json_loads array_world (arguments array_call) =
               Some (JArr [JStr "Tokyo"]))
    by (vm_compute; reflexivity).
  assert (Hnot : forall d, JArr [JStr "Tokyo"] <> JObj d)
    by (intros d H; discriminate).
  destruct (C10_get_weather_needs_an_object array_world
              (main array_world 5) array_call [] _ Hpc eq_refl Hv Hnot)
    as (_ & _ & Hrun & _).
  split; [exact Hpc|]. split; [exact Hv|].
  exact (Hrun 2 (le_n 2)).
Defined.

(** C5 on the run the script was written for, before its follow-up. *)
Lemma C5_witness :
  pc (main tokyo_world 8) = AtFollowUp /\
  exists reply answers,
    first_reply tokyo_world reply /\
    filter is_tool_message (messages (main tokyo_world 8)) = answers /\
    length answers = length (requested_calls reply).
Proof.
  assert (Hpc : pc (main tokyo_world 8) = AtFollowUp)
    by (vm_compute; reflexivity).
  split; [exact Hpc|].
  destruct (C5_each_request_has_its_tool_message tokyo_world 8 Hpc)
    as (reply & answers & Hfirst & _ & Hfilter & Hlen & _).
  exists reply, answers. split; [exact Hfirst|]. split; [exact Hfilter|].
  exact Hlen.
Defined.

(** C6 on the same run: the follow-up is answered and the answer printed. *)
Lemma C6_witness :
  pc (main tokyo_world 8) = AtFollowUp /\
  exists reply answers,
    main tokyo_world (8 + 3) =
      {| pc := Halted 0;
         messages := initial_messages ++ Reply reply :: answers;
         trace := trace (main tokyo_world 8) ++
           [Requested
              {| model := "gpt-3.5-turbo";
                 req_messages := initial_messages ++ Reply reply :: answers;
                 req_tools := None;
                 tool_choice := None |};
            Printed (Text (newline ++ "Final Agent Response:")%string);
            Printed (Text final_text);
            Printed (Text (newline ++ "Use Case 2 completed successfully.")%string)] |}.
Proof.
  assert (Hpc : pc (main tokyo_world 8) = AtFollowUp)
    by (vm_compute; reflexivity).
  split; [exact Hpc|].
  destruct (C6_follow_up_request_and_final_answer tokyo_world 8 Hpc)
    as (reply & answers & _ & _ & _ & _ & _ & Hfinal).
  exists reply, answers.
  exact (Hfinal {| choices := [says final_text] |} (says final_text) [] 3
           eq_refl eq_refl (le_n 3)).
Defined.

(** Against C1 as stated: the first reply carries two tool-call requests,
    the second with its arguments cut off.  One tool is entered, the run
    stops with status 1 at the second request, and no follow-up call is
    ever made: one invocation for two requests, one remote call in all. *)
Lemma C1_counterexample :
  first_reply cut_off_world (asks [time_call; cut_off_call]) /\
  length (requested_calls (asks [time_call; cut_off_call])) = 2 /\
  main cut_off_world 8 =
    {| pc := Halted 1;
       messages := initial_messages ++
         [Reply (asks [time_call; cut_off_call]);
          ToolDict "call_1" "get_current_time" "2025-03-09 14:05:00"];
       trace := opening_trace ++
         [Invoked "get_current_time" [];
          Printed (Text "Tool used: get_current_time");
          Printed (ErrorReport JSONDecodeError)] |} /\
  (forall fuel,
     length (invocations (trace (main cut_off_world fuel))) <= 1 /\
     length (requests (trace (main cut_off_world fuel))) <= 1).
Proof.
  assert (H8 : main cut_off_world 8 =
    {| pc := Halted 1;
       messages := initial_messages ++
         [Reply (asks [time_call; cut_off_call]);
          ToolDict "call_1" "get_current_time" "2025-03-09 14:05:00"];
       trace := opening_trace ++
         [Invoked "get_current_time" [];
          Printed (Text "Tool used: get_current_time");
          Printed (ErrorReport JSONDecodeError)] |})
    by (vm_compute; reflexivity).
  split; [|split; [|split]].
  - exists {| choices := [asks [time_call; cut_off_call]] |}, []. split; reflexivity.
  - reflexivity.
  - exact H8.
  - intros fuel.
    destruct (trace_before_halt cut_off_world 8 fuel 1%Z) as [later Hl].
    { rewrite H8. reflexivity. }
    rewrite H8 in Hl. cbn [trace] in Hl. split.
    + apply (f_equal (fun t => length (invocations t))) in Hl.
      rewrite !invocations_app, !length_app in Hl.
      cbn [opening_trace app invocations length] in Hl. lia.
    + apply (f_equal (fun t => length (requests t))) in Hl.
      rewrite !requests_app, !length_app in Hl.
      cbn [opening_trace app requests length] in Hl. lia.
Qed.

(** Against C2 as stated: the arguments of the only tool call are cut off
    and so are not JSON.  [get_weather] is never entered, with no argument
    set at all; no tool message is ever appended; the run stops with status
    1 on the report of the decoding error. *)
Lemma C2_counterexample :
  json_loads cut_off_only_world (arguments cut_off_call) = None /\
  first_reply cut_off_only_world (asks [cut_off_call]) /\
  main cut_off_only_world 7 =
    {| pc := Halted 1;
       messages := initial_messages ++ [Reply (asks [cut_off_call])];
       trace := opening_trace ++ [Printed (ErrorReport JSONDecodeError)] |} /\
  (forall fuel,
     invocations (trace (main cut_off_only_world fuel)) = [] /\
     filter is_tool_message (messages (main cut_off_only_world fuel)) = []).
Proof.
  assert (H7 : main cut_off_only_world 7 =
    {| pc := Halted 1;
       messages := initial_messages ++ [Reply (asks [cut_off_call])];
       trace := opening_trace ++ [Printed (ErrorReport JSONDecodeError)] |})
    by (vm_compute; reflexivity).
  split; [vm_compute; reflexivity|]. split; [|split].
  - exists {| choices := [asks [cut_off_call]] |}, []. split; reflexivity.
  - exact H7.
  - intros fuel. split.
    + destruct (trace_before_halt cut_off_only_world 7 fuel 1%Z) as [later Hl].
      { rewrite H7. reflexivity. }
      rewrite H7 in Hl. cbn [trace] in Hl.
      apply (f_equal invocations) in Hl. rewrite !invocations_app in Hl.
      cbn [opening_trace app invocations] in Hl.
      symmetry in Hl. apply app_eq_nil in Hl. tauto.
    + destruct (messages_before_halt cut_off_only_world 7 fuel 1%Z) as [later Hl].
      { rewrite H7. reflexivity. }
      rewrite H7 in Hl. cbn [messages] in Hl.
      apply (f_equal (filter is_tool_message)) in Hl. rewrite !filter_app in Hl.
      cbn [initial_messages app filter is_tool_message] in Hl. symmetry in Hl. apply app_eq_nil in Hl. tauto.
Qed.

(** Against C4 as stated: the request names a function that is not
    implemented and its arguments are not JSON.  Dispatch raises, no tool
    message is written, and the run stops with status 1 without a
    follow-up request. *)
Lemma C4_counterexample :
  function_name stock_call <> "get_current_time"%string /\
  function_name stock_call <> "get_weather"%string /\
  first_reply stock_world (asks [stock_call]) /\
  dispatch stock_world 0 stock_call = ([], Raised JSONDecodeError) /\
  main stock_world 7 =
    {| pc := Halted 1;
       messages := initial_messages ++ [Reply (asks [stock_call])];
       trace := opening_trace ++ [Printed (ErrorReport JSONDecodeError)] |}.
Proof.
  split; [cbn; discriminate|]. split; [cbn; discriminate|].
  split; [|split].
  - exists {| choices := [asks [stock_call]] |}, []. split; reflexivity.
  - vm_compute. reflexivity.
  - vm_compute. reflexivity.
Qed.

(** * Further properties *)

(** ** Failures of use case 2 *)

Lemma stays_halted (W : World) (k : nat) (final : State) (code : Z) :
  main W k = final -> pc final = Halted code ->
  forall fuel, k <= fuel -> main W fuel = final.
Proof.
  intros Hk Hpc fuel Hle. rewrite <- Hk.
  apply main_settled with code; [|exact Hle]. rewrite Hk. exact Hpc.
Qed.

(** X1.  When the SDK cannot be imported or its client cannot be made,
    use case 2 prints its greeting, reports the exception and exits with
    status 1: no remote call is made and [messages] is never created. *)
Theorem client_failure_ends_the_run (W : World) (e : exn) :
  truthy_str (getenv W api_key_name) = true ->
  openai_client W = Some e ->
  forall fuel, 3 <= fuel ->
    main W fuel =
      {| pc := Halted 1; messages := [];
         trace := [Printed (Text "Starting Use Case 2: Agent with Tool Example");
                   Printed (ErrorReport e)] |}.
Proof.
  intros Hkey Hclient. apply stays_halted with 1%Z; [|reflexivity].
  unfold main, initial. rewrite !run_S.
  rewrite step_check_env_passes by exact Hkey.
  rewrite (step_start_fails W _ _ e Hclient), step_handler. reflexivity.
Qed.

(** X2.  When the first remote call raises, use case 2 reports the
    exception and exits with status 1: that call is the only one, no tool
    function is entered and nothing is appended to the initial messages. *)
Theorem first_call_failure_ends_the_run (W : World) (e : exn) :
  truthy_str (getenv W api_key_name) = true ->
  openai_client W = None ->
  create W 0 (first_request initial_messages) = Raised e ->
  forall fuel, 4 <= fuel ->
    main W fuel =
      {| pc := Halted 1; messages := initial_messages;
         trace := [Printed (Text "Starting Use Case 2: Agent with Tool Example");
                   Requested (first_request initial_messages);
                   Printed (ErrorReport e)] |}.
Proof.
  intros Hkey Hclient Hcreate. apply stays_halted with 1%Z; [|reflexivity].
  unfold main, initial. rewrite !run_S.
  rewrite step_check_env_passes by exact Hkey.
  rewrite step_start by exact Hclient.
  rewrite (step_first_call W _ _ (Raised e)) by exact Hcreate.
  rewrite step_handler. reflexivity.
Qed.

(** X3.  When the first response has no choice, [choices[0]] raises
    [IndexError]: the run reports it and exits with status 1 with the
    initial messages as they were, one remote call made and nothing
    printed after the greeting but the report. *)
Theorem first_response_without_choice_ends_the_run
  (W : World) (response : ChatCompletion) :
  truthy_str (getenv W api_key_name) = true ->
  openai_client W = None ->
  create W 0 (first_request initial_messages) = Returned response ->
  choices response = [] ->
  forall fuel, 5 <= fuel ->
    main W fuel =
      {| pc := Halted 1; messages := initial_messages;
         trace := [Printed (Text "Starting Use Case 2: Agent with Tool Example");
                   Requested (first_request initial_messages);
                   Printed (ErrorReport IndexError)] |}.
Proof.
  intros Hkey Hclient Hcreate Hchoices.
  apply stays_halted with 1%Z; [|reflexivity].
  unfold main, initial. rewrite !run_S.
  rewrite step_check_env_passes by exact Hkey.
  rewrite step_start by exact Hclient.
  rewrite (step_first_call W _ _ (Returned response)) by exact Hcreate.
  rewrite step_reply_empty by exact Hchoices.
  rewrite step_handler. reflexivity.
Qed.

(** X4.  When the follow-up call raises, the tools have already run and
    their messages stay in [messages], but no final answer is printed:
    the run reports the exception after the request and exits with
    status 1. *)
Theorem follow_up_failure_ends_the_run (W : World) (fuel : nat) (e : exn) :
  pc (main W fuel) = AtFollowUp ->
  create W 1 (follow_up_request (messages (main W fuel))) = Raised e ->
  forall more, 2 <= more ->
    main W (fuel + more) =
      {| pc := Halted 1;
         messages := messages (main W fuel);
         trace := trace (main W fuel) ++
           [Requested (follow_up_request (messages (main W fuel)));
            Printed (ErrorReport e)] |}.
Proof.
  intros Hpc Hcreate more Hmore.
  pose proof (invariant_main W fuel) as Hinv.
  unfold invariant in Hinv. rewrite Hpc in Hinv. destruct Hinv as (Hreq & _).
  unfold main in *. destruct (run W fuel initial) as [p m t] eqn:Hs.
  rewrite run_add, Hs. cbn [pc messages trace] in *. subst p.
  replace more with (2 + (more - 2)) by lia. rewrite run_add.
  cbn [run Nat.add].
  rewrite (step_follow_up W m t (Raised e)).
  2:{ rewrite Hreq. exact Hcreate. }
  rewrite step_handler, run_halted with (code := 1%Z) by reflexivity.
  rewrite <- app_assoc. reflexivity.
Qed.

(** X5.  When the follow-up response has no choice, the header of line 133
    is printed before [choices[0]] raises [IndexError]: the run prints the
    header, then the report, and exits with status 1. *)
Theorem final_response_without_choice_ends_the_run
  (W : World) (fuel : nat) (response : ChatCompletion) :
  pc (main W fuel) = AtFollowUp ->
  create W 1 (follow_up_request (messages (main W fuel))) = Returned response ->
  choices response = [] ->
  forall more, 3 <= more ->
    main W (fuel + more) =
      {| pc := Halted 1;
         messages := messages (main W fuel);
         trace := trace (main W fuel) ++
           [Requested (follow_up_request (messages (main W fuel)));
            Printed (Text (newline ++ "Final Agent Response:")%string);
            Printed (ErrorReport IndexError)] |}.
Proof.
  intros Hpc Hcreate Hchoices more Hmore.
  pose proof (invariant_main W fuel) as Hinv.
  unfold invariant in Hinv. rewrite Hpc in Hinv. destruct Hinv as (Hreq & _).
  unfold main in *. destruct (run W fuel initial) as [p m t] eqn:Hs.
  rewrite run_add, Hs. cbn [pc messages trace] in *. subst p.
  replace more with (3 + (more - 3)) by lia. rewrite run_add.
  cbn [run Nat.add].
  rewrite (step_follow_up W m t (Returned response)).
  2:{ rewrite Hreq. exact Hcreate. }
  rewrite step_final_empty by exact Hchoices.
  rewrite step_handler, run_halted with (code := 1%Z) by reflexivity.
  rewrite <- !app_assoc. reflexivity.
Qed.

(** X6.  A credential set to the empty string counts as missing: both
    scripts print the two lines of [check_env] and exit with status 1
    without a remote call. *)
Theorem empty_credential_counts_as_missing (W : World) :
  getenv W api_key_name = Some ""%string ->
  (forall fuel, 1 <= fuel ->
     main W fuel =
       {| pc := Halted 1; messages := [];
          trace :=
            [Printed (Text "Error: OPENAI_API_KEY environment variable is not set.");
             Printed (Text "Please set it in the .env file or as an environment variable.")] |}) /\
  (forall fuel, 1 <= fuel ->
     UseCase1.main W fuel =
       {| UseCase1.pc := UseCase1.Halted 1;
          UseCase1.trace :=
            [Printed (Text "Error: OPENAI_API_KEY environment variable is not set.");
             Printed (Text "Please set it in the .env file or as an environment variable.")] |}).
Proof.
  intros Hkey. split.
  - apply stays_halted with 1%Z; [|reflexivity].
    unfold main, initial. rewrite run_S, step_check_env_exits.
    + reflexivity.
    + rewrite Hkey. reflexivity.
  - intros fuel Hle. destruct fuel as [|fuel]; [lia|].
    unfold UseCase1.main, UseCase1.initial. cbn [UseCase1.run].
    assert (H1 : UseCase1.step W {| UseCase1.pc := UseCase1.AtCheckEnv;
                                   UseCase1.trace := [] |} =
       {| UseCase1.pc := UseCase1.Halted 1;
          UseCase1.trace :=
            [Printed (Text "Error: OPENAI_API_KEY environment variable is not set.");
             Printed (Text "Please set it in the .env file or as an environment variable.")] |}).
    { unfold UseCase1.step, UseCase1.check_env. cbn [UseCase1.pc].
      rewrite Hkey. reflexivity. }
    rewrite H1. apply use_case_1_halted with 1%Z. reflexivity.
Qed.

(** ** Use case 1 *)

Lemma use_case_1_stays_halted (W : World) (k : nat) (final : UseCase1.State)
  (code : Z) :
  UseCase1.main W k = final -> UseCase1.pc final = UseCase1.Halted code ->
  forall fuel, k <= fuel -> UseCase1.main W fuel = final.
Proof.
  intros Hk Hpc fuel Hle. unfold UseCase1.main in *.
  replace fuel with (k + (fuel - k)) by lia.
  assert (Hadd : forall n m s,
            UseCase1.run W (n + m) s = UseCase1.run W m (UseCase1.run W n s)).
  { induction n as [|n IH]; intros m s; cbn [UseCase1.run Nat.add]; auto. }
  rewrite Hadd, Hk. apply use_case_1_halted with code. exact Hpc.
Qed.

Section UseCase1Steps.

Variable W : World.
Variable t : list Event.

Ltac rule1 :=
  intros; unfold UseCase1.step, UseCase1.goto, UseCase1.check_env;
  cbn [UseCase1.pc UseCase1.trace];
  repeat match goal with H : _ = _ |- _ => rewrite H end;
  cbn [negb map]; rewrite ?app_nil_r; reflexivity.

Lemma use_case_1_run_S (n : nat) (s : UseCase1.State) :
  UseCase1.run W (S n) s = UseCase1.run W n (UseCase1.step W s).
Proof. reflexivity. Qed.

Lemma use_case_1_check_env (passes : bool) :
  truthy_str (getenv W api_key_name) = passes ->
  UseCase1.step W {| UseCase1.pc := UseCase1.AtCheckEnv; UseCase1.trace := t |} =
  if passes
  then {| UseCase1.pc := UseCase1.AtStart; UseCase1.trace := t |}
  else {| UseCase1.pc := UseCase1.Halted 1;
          UseCase1.trace := t ++
            [Printed (Text "Error: OPENAI_API_KEY environment variable is not set.");
             Printed (Text "Please set it in the .env file or as an environment variable.")] |}.
Proof. destruct passes; rule1. Qed.

Lemma use_case_1_start (client : option exn) :
  openai_client W = client ->
  UseCase1.step W {| UseCase1.pc := UseCase1.AtStart; UseCase1.trace := t |} =
  {| UseCase1.pc := match client with
                    | Some e => UseCase1.AtHandler e
                    | None => UseCase1.AtCall
                    end;
     UseCase1.trace :=
       t ++ [Printed (Text "Starting Use Case 1: Simple Agent Example")] |}.
Proof. destruct client; rule1. Qed.

Lemma use_case_1_call (result : outcome ChatCompletion) :
  create W (length (requests t)) UseCase1.request = result ->
  UseCase1.step W {| UseCase1.pc := UseCase1.AtCall; UseCase1.trace := t |} =
  {| UseCase1.pc := match result with
                    | Returned response => UseCase1.AtAnswer response
                    | Raised e => UseCase1.AtHandler e
                    end;
     UseCase1.trace := t ++ [Requested UseCase1.request] |}.
Proof. destruct result; rule1. Qed.

Lemma use_case_1_answer response (picked : list ChatCompletionMessage) :
  choices response = picked ->
  UseCase1.step W
    {| UseCase1.pc := UseCase1.AtAnswer response; UseCase1.trace := t |} =
  match picked with
  | [] =>
      {| UseCase1.pc := UseCase1.AtHandler IndexError;
         UseCase1.trace :=
           t ++ [Printed (Text (newline ++ "Agent Response:")%string)] |}
  | answer :: _ =>
      {| UseCase1.pc := UseCase1.AtDone;
         UseCase1.trace :=
           t ++ [Printed (Text (newline ++ "Agent Response:")%string);
                 Printed (Text (str_opt (content answer)))] |}
  end.
Proof. destruct picked; rule1. Qed.

Lemma use_case_1_done :
  UseCase1.step W {| UseCase1.pc := UseCase1.AtDone; UseCase1.trace := t |} =
  {| UseCase1.pc := UseCase1.Halted 0;
     UseCase1.trace :=
       t ++ [Printed (Text (newline ++ "Use Case 1 completed successfully.")%string)] |}.
Proof. rule1. Qed.

Lemma use_case_1_handler e :
  UseCase1.step W {| UseCase1.pc := UseCase1.AtHandler e; UseCase1.trace := t |} =
  {| UseCase1.pc := UseCase1.Halted 1;
     UseCase1.trace := t ++ [Printed (ErrorReport e)] |}.
Proof. rule1. Qed.

End UseCase1Steps.

(** X7.  With the credential set, the client made and a response with a
    first choice, use case 1 sends its one request (two messages, no tool
    catalog), prints the content of the first choice under its header, and
    exits with status 0. *)
Theorem use_case_1_prints_the_answer
  (W : World) (response : ChatCompletion)
  (answer : ChatCompletionMessage) (others : list ChatCompletionMessage) :
  truthy_str (getenv W api_key_name) = true ->
  openai_client W = None ->
  create W 0 UseCase1.request = Returned response ->
  choices response = answer :: others ->
  forall fuel, 5 <= fuel ->
    UseCase1.main W fuel =
      {| UseCase1.pc := UseCase1.Halted 0;
         UseCase1.trace :=
           [Printed (Text "Starting Use Case 1: Simple Agent Example");
            Requested
              {| model := "gpt-3.5-turbo";
                 req_messages :=
                   [Dict system "You are a helpful assistant.";
                    Dict user "Write a haiku about the ocean."];
                 req_tools := None;
                 tool_choice := None |};
            Printed (Text (newline ++ "Agent Response:")%string);
            Printed (Text (str_opt (content answer)));
            Printed (Text (newline ++ "Use Case 1 completed successfully.")%string)] |}.
Proof.
  intros Hkey Hclient Hcreate Hchoices.
  apply use_case_1_stays_halted with 0%Z; [|reflexivity].
  unfold UseCase1.main, UseCase1.initial. rewrite !use_case_1_run_S.
  rewrite (use_case_1_check_env W _ true Hkey).
  rewrite (use_case_1_start W _ None Hclient).
  rewrite (use_case_1_call W _ (Returned response)) by exact Hcreate.
  rewrite (use_case_1_answer W _ response _ Hchoices).
  rewrite use_case_1_done. reflexivity.
Qed.

(** X8.  When the request of use case 1 raises, the script reports the
    exception and exits with status 1 without printing an answer. *)
Theorem use_case_1_reports_a_failed_call (W : World) (e : exn) :
  truthy_str (getenv W api_key_name) = true ->
  openai_client W = None ->
  create W 0 UseCase1.request = Raised e ->
  forall fuel, 4 <= fuel ->
    UseCase1.main W fuel =
      {| UseCase1.pc := UseCase1.Halted 1;
         UseCase1.trace :=
           [Printed (Text "Starting Use Case 1: Simple Agent Example");
            Requested UseCase1.request;
            Printed (ErrorReport e)] |}.
Proof.
  intros Hkey Hclient Hcreate.
  apply use_case_1_stays_halted with 1%Z; [|reflexivity].
  unfold UseCase1.main, UseCase1.initial. rewrite !use_case_1_run_S.
  rewrite (use_case_1_check_env W _ true Hkey).
  rewrite (use_case_1_start W _ None Hclient).
  rewrite (use_case_1_call W _ (Raised e)) by exact Hcreate.
  rewrite use_case_1_handler. reflexivity.
Qed.

(** X9.  In every world use case 1 halts within five steps, with status 0
    or 1, and has then made at most one remote call. *)
Theorem use_case_1_halts_within_five_steps (W : World) :
  exists code,
    UseCase1.pc (UseCase1.main W 5) = UseCase1.Halted code /\
    (code = 0%Z \/ code = 1%Z) /\
    length (requests (UseCase1.trace (UseCase1.main W 5))) <= 1 /\
    (forall fuel, 5 <= fuel -> UseCase1.main W fuel = UseCase1.main W 5).
Proof.
  assert (H : exists code,
    UseCase1.pc (UseCase1.main W 5) = UseCase1.Halted code /\
    (code = 0%Z \/ code = 1%Z) /\
    length (requests (UseCase1.trace (UseCase1.main W 5))) <= 1).
  { unfold UseCase1.main, UseCase1.initial. rewrite !use_case_1_run_S.
    rewrite (use_case_1_check_env W _ _ eq_refl).
    destruct (truthy_str (getenv W api_key_name)).
    2:{ exists 1%Z. rewrite !use_case_1_halted with (code := 1%Z) by reflexivity.
        cbn. auto. }
    rewrite (use_case_1_start W _ _ eq_refl).
    destruct (openai_client W) as [e|].
    { exists 1%Z. rewrite use_case_1_handler.
      rewrite !use_case_1_halted with (code := 1%Z) by reflexivity.
      cbn. auto. }
    rewrite (use_case_1_call W _ _ eq_refl). cbn [app requests length].
    destruct (create W 0 UseCase1.request) as [response|e].
    2:{ exists 1%Z. rewrite use_case_1_handler.
        rewrite !use_case_1_halted with (code := 1%Z) by reflexivity.
        cbn. auto. }
    rewrite (use_case_1_answer W _ response _ eq_refl).
    destruct (choices response) as [|answer others].
    - exists 1%Z. rewrite use_case_1_handler. cbn. auto.
    - exists 0%Z. rewrite use_case_1_done. cbn. auto. }
  destruct H as (code & Hpc & Hcode & Hreq).
  exists code. repeat split; auto.
  apply use_case_1_stays_halted with code; auto.
Qed.

(** ** How a run of use case 2 ends *)




(** ** The order of calls and tools *)

Lemma protocol_app (p : Phase) (t u : list Event) :
  protocol p (t ++ u) =
  match protocol p t with
  | Some q => protocol q u
  | None => None
  end.
Proof.
  revert p; induction t as [|e t IH]; intros p; [reflexivity|].
  destruct e, p; cbn [app protocol]; auto.
Qed.

Lemma protocol_printed (p : Phase) (ls : list line) :
  protocol p (map Printed ls) = Some p.
Proof. induction ls; cbn [map protocol]; auto. Qed.

Lemma dispatch_in_phase (W : World) (clock : nat) (c : ToolCall) :
  forall events result, dispatch W clock c = (events, result) ->
  protocol Dispatching events = Some Dispatching.
Proof.
  intros events result. unfold dispatch.
  destruct (json_loads W (arguments c)) as [v|];
    [|intros H; inversion H; reflexivity].
  destruct (String.eqb (function_name c) "get_current_time");
    [intros H; inversion H; reflexivity|].
  destruct (String.eqb (function_name c) "get_weather");
    [|intros H; inversion H; reflexivity].
  destruct (py_get v "location" (JStr "New York"));
    intros H; inversion H; reflexivity.
Qed.

Lemma in_phase_step (W : World) (s : State) :
  in_phase s -> in_phase (step W s).
Proof.
  unfold in_phase, step.
  destruct (pc s) as [| | |r|m|[|c rest]| |r|m| |e|code] eqn:Hpc; intros H.
  - destruct (check_env W) as [out [code|]]; cbn [pc goto trace];
      rewrite protocol_app, H, protocol_printed; eauto.
  - destruct (openai_client W); cbn [pc goto trace];
      rewrite protocol_app, H; cbn [protocol]; eauto.
  - destruct (create W _ _); cbn [pc goto trace];
      rewrite protocol_app, H; cbn [protocol]; eauto.
  - destruct (choices r); cbn [pc goto trace];
      rewrite protocol_app, H; cbn [protocol]; eauto.
  - destruct (wants_tools m); cbn [pc goto trace];
      rewrite protocol_app, H; cbn [protocol]; eauto.
  - cbn [pc goto trace]. rewrite protocol_app, H. reflexivity.
  - destruct (dispatch W _ c) as [events [text|e]] eqn:Hd;
      cbn [pc goto trace]; rewrite protocol_app, H; cbv beta iota;
      rewrite ?protocol_app, (dispatch_in_phase W _ c _ _ Hd);
      cbn [protocol]; eauto.
  - destruct (create W _ _); cbn [pc goto trace];
      rewrite protocol_app, H; cbn [protocol]; eauto.
  - destruct (choices r); cbn [pc goto trace];
      rewrite protocol_app, H; cbn [protocol]; eauto.
  - cbn [pc goto trace]. rewrite protocol_app, H. cbn [protocol]. eauto.
  - destruct H as [q H]. cbn [pc goto trace].
    rewrite protocol_app, H. cbn [protocol]. eauto.
  - destruct H as [q H]. cbn [pc goto trace].
    rewrite protocol_app, H. cbn [protocol]. eauto.
  - rewrite Hpc. exact H.
Qed.

(** X11.  At every point of every run of use case 2 the trace keeps to
    one order: before the first remote call the run only prints; tool
    functions are entered only between the first remote call and the
    second; after the second remote call the run only prints, so there is
    no third call. *)
Theorem calls_and_tools_keep_their_order (W : World) (n : nat) :
  exists phase, protocol BeforeFirstCall (trace (main W n)) = Some phase.
Proof.
  assert (H : in_phase (main W n)).
  { unfold main. induction n as [|n IH]; [reflexivity|].
    rewrite run_last. apply in_phase_step, IH. }
  unfold in_phase in H. destruct (pc (main W n)); eauto.
Qed.

(** ** What a run sends and what it keeps *)



Lemma answers_a_prefix_step (W : World) (s : State) :
  invariant W s -> answers_a_prefix W s -> answers_a_prefix W (step W s).
Proof.
  unfold invariant, answers_a_prefix, step.
  destruct (pc s) as [| | |r|m|[|c rest]| |r|m| |e|code] eqn:Hpc; intros Hinv H.
  - destruct (check_env W) as [out [code|]]; cbn [goto messages];
      rewrite app_nil_r; exact H.
  - destruct (openai_client W); cbn [goto messages];
      [rewrite app_nil_r; exact H|left; reflexivity].
  - destruct (create W _ _); cbn [goto messages]; rewrite app_nil_r; exact H.
  - destruct (choices r); cbn [goto messages];
      rewrite ?filter_app, app_nil_r; exact H.
  - destruct (wants_tools m); cbn [goto messages]; rewrite app_nil_r; exact H.
  - cbn [goto messages]. rewrite app_nil_r. exact H.
  - destruct Hinv as (_ & reply & done & answers & Hfirst & _ & Hcalls & Hm & Hans).
    destruct (dispatch W _ c) as [events [text|e]] eqn:Hd; cbn [goto messages];
      [|rewrite app_nil_r; exact H].
    right. exists reply, (done ++ [c]), rest.
    split; [exact Hfirst|]. split; [rewrite Hcalls, <- app_assoc; reflexivity|].
    rewrite Hm, !filter_app.
    cbn [filter initial_messages is_tool_message tool_message app].
    destruct (answers_are_tool_messages W _ _ Hans) as [-> _].
    apply Forall2_app; [exact Hans|].
    constructor; [|constructor]. exists text. split; [reflexivity|]. eauto.
  - destruct (create W _ _); cbn [goto messages]; rewrite app_nil_r; exact H.
  - destruct (choices r); cbn [goto messages]; rewrite app_nil_r; exact H.
  - cbn [goto messages]. rewrite app_nil_r. exact H.
  - cbn [goto messages]. rewrite app_nil_r. exact H.
  - cbn [goto messages]. rewrite app_nil_r. exact H.
  - exact H.
Qed.

(** X13.  At every point of every run of use case 2, also when the run
    has failed, the tool messages in [messages] answer one for one and in
    order the first requests of the first reply: each echoes the id and
    the function name of its request and carries what dispatch returned
    for it; no request has two answers and none is answered before an
    earlier one. *)
Theorem tool_messages_answer_a_prefix_of_the_requests (W : World) (n : nat) :
  answers_a_prefix W (main W n).
Proof.
  unfold main. induction n as [|n IH].
  - left. reflexivity.
  - rewrite run_last. apply answers_a_prefix_step; [|exact IH].
    apply invariant_run, invariant_initial.
Qed.

(** ** The catalog and the dispatch *)

(** X14.  The catalog sent with the first request and the dispatch of
    lines 109-114 agree: for a request whose arguments decode to an
    object, dispatch enters the local function of that name when the name
    is in the catalog, and returns the "not implemented" text without
    entering any function when it is not.  The names of the catalog are
    distinct. *)
Theorem catalog_names_are_the_dispatched_names
  (W : World) (clock : nat) (c : ToolCall) (d : list (string * json)) :
  json_loads W (arguments c) = Some (JObj d) ->
  NoDup (map tool_name tools) /\
  ((In (function_name c) (map tool_name tools) /\
    exists args function_response,
      dispatch W clock c =
        ([Invoked (function_name c) args], Returned function_response)) \/
   (~ In (function_name c) (map tool_name tools) /\
    dispatch W clock c =
      ([], Returned ("Error: Function " ++ function_name c
                     ++ " not implemented")%string))).
Proof.
  intros Hv. split.
  { repeat constructor; cbn; intuition discriminate. }
  destruct (String.eqb (function_name c) "get_current_time") eqn:E1.
  { apply String.eqb_eq in E1. left. split; [rewrite E1; cbn; auto|].
    rewrite (dispatch_time W clock c _ Hv E1), E1. eauto. }
  destruct (String.eqb (function_name c) "get_weather") eqn:E2.
  { apply String.eqb_eq in E2. left. split; [rewrite E2; cbn; auto|].
    rewrite (dispatch_weather W clock c _ Hv E2), E2. cbn [py_get].
    destruct (dict_lookup d "location"); eauto. }
  apply String.eqb_neq in E1. apply String.eqb_neq in E2. right. split.
  - cbn. intros [H|[H|[]]]; [apply E1|apply E2]; symmetry; exact H.
  - apply dispatch_unknown with (JObj d); assumption.
Qed.

(** ** The timestamp *)

Lemma dec2_two_digits (n : nat) : n < 100 -> two_digits (dec2 n) = true.
Proof.
  intros H.
  assert (Hall : forallb (fun k => two_digits (dec2 k)) (seq 0 100) = true)
    by (vm_compute; reflexivity).
  rewrite forallb_forall in Hall. apply Hall. apply in_seq. lia.
Qed.

Ltac each_digit k H :=
  do 10 (destruct k as [|k]; [try reflexivity|]); try (exfalso; lia).

Lemma of_lu_add_digit (k : nat) (d : Decimal.uint) :
  k < 10 -> Unsigned.of_lu (add_digit k d) = k + 10 * Unsigned.of_lu d.
Proof. intros H. each_digit k H. Qed.

Lemma revapp_add_digit (k : nat) (d d' : Decimal.uint) :
  Decimal.revapp (add_digit k d) d' = Decimal.revapp d (add_digit k d').
Proof. do 9 (destruct k as [|k]; [reflexivity|]). reflexivity. Qed.

Lemma string_of_add_digit (k : nat) (d : Decimal.uint) :
  k < 10 ->
  exists c, is_digit c = true /\
    NilEmpty.string_of_uint (add_digit k d) = String c (NilEmpty.string_of_uint d).
Proof.
  intros H.
  do 10 (destruct k as [|k]; [eexists; split; [|reflexivity]; reflexivity|]).
  exfalso; lia.
Qed.

Lemma unorm_add_digit (k : nat) (d : Decimal.uint) :
  1 <= k < 10 -> Decimal.unorm (add_digit k d) = add_digit k d.
Proof.
  intros H. destruct k as [|k]; [lia|].
  do 9 (destruct k as [|k]; [reflexivity|]). exfalso; lia.
Qed.

Lemma dec_four_digits (n : nat) :
  1000 <= n < 10 * 1000 -> four_digits (dec n) = true.
Proof.
  intros H.
  pose proof (Nat.div_mod_eq n 10) as H0.
  pose proof (Nat.mod_upper_bound n 10 ltac:(discriminate)) as B0.
  pose proof (Nat.div_mod_eq (n / 10) 10) as H1.
  pose proof (Nat.mod_upper_bound (n / 10) 10 ltac:(discriminate)) as B1.
  pose proof (Nat.div_mod_eq (n / 10 / 10) 10) as H2.
  pose proof (Nat.mod_upper_bound (n / 10 / 10) 10 ltac:(discriminate)) as B2.
  set (d0 := n mod 10) in *. set (q1 := n / 10) in *.
  set (d1 := q1 mod 10) in *. set (q2 := q1 / 10) in *.
  set (d2 := q2 mod 10) in *. set (d3 := q2 / 10) in *.
  assert (B3 : 1 <= d3 < 10) by lia.
  set (u := add_digit d3 (add_digit d2 (add_digit d1 (add_digit d0 Decimal.Nil)))).
  assert (Hn : Nat.of_uint u = n).
  { rewrite Unsigned.of_uint_alt. unfold u, Decimal.rev.
    rewrite !revapp_add_digit. cbn [Decimal.revapp].
    rewrite !of_lu_add_digit by lia. cbn [Unsigned.of_lu]. lia. }
  assert (Hu : Nat.to_uint n = u).
  { rewrite <- Hn, Unsigned.to_of. apply unorm_add_digit. exact B3. }
  unfold dec. rewrite Hu. unfold u.
  assert (Hz : forall k d, k < 10 ->
            NilZero.string_of_uint (add_digit k d)
            = NilEmpty.string_of_uint (add_digit k d)).
  { intros k d Hk. do 10 (destruct k as [|k]; [reflexivity|]). exfalso; lia. }
  rewrite Hz by lia.
  destruct (string_of_add_digit d3 (add_digit d2 (add_digit d1 (add_digit d0 Decimal.Nil))))
    as (c3 & D3 & ->); [lia|].
  destruct (string_of_add_digit d2 (add_digit d1 (add_digit d0 Decimal.Nil)))
    as (c2 & D2 & ->); [lia|].
  destruct (string_of_add_digit d1 (add_digit d0 Decimal.Nil))
    as (c1 & D1 & ->); [lia|].
  destruct (string_of_add_digit d0 Decimal.Nil) as (c0 & D0 & ->); [lia|].
  cbn [NilEmpty.string_of_uint four_digits]. rewrite D3, D2, D1, D0. reflexivity.
Qed.

Ltac two_digit_field H :=
  apply dec2_two_digits in H;
  match type of H with
  | two_digits ?s = true =>
      destruct s as [|? [|? [|? ?]]]; try discriminate H;
      cbn [two_digits] in H; apply andb_prop in H; destruct H as [? ?]
  end.

(** X15.  For every reading the clock can give (a year of four digits),
    [get_current_time] returns nineteen characters of the shape
    dddd-dd-dd dd:dd:dd: the fields are padded with zeros to a fixed
    width and the separators stand where the format of line 26 puts
    them. *)
Theorem get_current_time_has_the_shape_of_its_format (now : datetime) :
  clock_reading now ->
  timestamp_shape (get_current_time now) = true /\
  String.length (get_current_time now) = 19.
Proof.
  intros (Hy & Hm & Hd & Hh & Hn & Hs).
  assert (Hy' : four_digits (dec (year now)) = true)
    by (apply dec_four_digits; lia).
  assert (Hm' : month now < 100) by lia.
  assert (Hd' : day now < 100) by lia.
  assert (Hh' : hour now < 100) by lia.
  assert (Hn' : minute now < 100) by lia.
  assert (Hs' : second now < 100) by lia.
  unfold get_current_time.
  destruct (dec (year now)) as [|y1 [|y2 [|y3 [|y4 [|? ?]]]]];
    try discriminate Hy'.
  cbn [four_digits] in Hy'.
  apply andb_prop in Hy'. destruct Hy' as [Hy' Hy4].
  apply andb_prop in Hy'. destruct Hy' as [Hy' Hy3].
  apply andb_prop in Hy'. destruct Hy' as [Hy1 Hy2].
  two_digit_field Hm'. two_digit_field Hd'. two_digit_field Hh'.
  two_digit_field Hn'. two_digit_field Hs'.
  cbn [append timestamp_shape forallb String.length].
  repeat match goal with H : is_digit _ = true |- _ => rewrite H; clear H end.
  split; reflexivity.
Qed.

(** X15 on the reading of the sample worlds. *)
Lemma get_current_time_shape_witness :
  clock_reading sample_clock /\
  timestamp_shape (get_current_time sample_clock) = true /\
  String.length (get_current_time sample_clock) = 19.
Proof.
  assert (H : clock_reading sample_clock) by (unfold clock_reading; cbn; lia).
  split; [exact H|].
  exact (get_current_time_has_the_shape_of_its_format sample_clock H).
Defined.

(** ** The further properties on sample runs *)

(** X1 on the run without the SDK. *)
Lemma client_failure_witness :
  openai_client no_sdk_world = Some (LibraryError "No module named 'openai'") /\
  main no_sdk_world 3 =
    {| pc := Halted 1; messages := [];
       trace := [Printed (Text "Starting Use Case 2: Agent with Tool Example");
                 Printed (ErrorReport (LibraryError "No module named 'openai'"))] |}.
Proof.
  split; [reflexivity|].
  exact (client_failure_ends_the_run no_sdk_world _ eq_refl eq_refl 3 (le_n 3)).
Defined.

(** X2 on the run whose service cannot be reached. *)
Lemma first_call_failure_witness :
  create unreachable_world 0 (first_request initial_messages) =
    Raised (LibraryError "Connection error.") /\
  main unreachable_world 4 =
    {| pc := Halted 1; messages := initial_messages;
       trace := [Printed (Text "Starting Use Case 2: Agent with Tool Example");
                 Requested (first_request initial_messages);
                 Printed (ErrorReport (LibraryError "Connection error."))] |}.
Proof.
  split; [reflexivity|].
  exact (first_call_failure_ends_the_run unreachable_world _
           eq_refl eq_refl eq_refl 4 (le_n 4)).
Defined.

(** X3 on the run whose first response has no choice. *)
Lemma first_response_without_choice_witness :
  create no_choice_world 0 (first_request initial_messages) =
    Returned {| choices := [] |} /\
  main no_choice_world 5 =
    {| pc := Halted 1; messages := initial_messages;
       trace := [Printed (Text "Starting Use Case 2: Agent with Tool Example");
                 Requested (first_request initial_messages);
                 Printed (ErrorReport IndexError)] |}.
Proof.
  split; [reflexivity|].
  exact (first_response_without_choice_ends_the_run no_choice_world
           {| choices := [] |} eq_refl eq_refl eq_refl eq_refl 5 (le_n 5)).
Defined.

(** X4 on the run whose follow-up call fails after both tools have run. *)
Lemma follow_up_failure_witness :
  pc (main dropped_world 8) = AtFollowUp /\
  main dropped_world (8 + 2) =
    {| pc := Halted 1;
       messages := messages (main dropped_world 8);
       trace := trace (main dropped_world 8) ++
         [Requested (follow_up_request (messages (main dropped_world 8)));
          Printed (ErrorReport (LibraryError "Connection error."))] |}.
Proof.
  assert (Hpc : pc (main dropped_world 8) = AtFollowUp)
    by (vm_compute; reflexivity).
  split; [exact Hpc|].
  exact (follow_up_failure_ends_the_run dropped_world 8 _ Hpc eq_refl 2 (le_n 2)).
Defined.

(** X5 on the run whose follow-up response has no choice. *)
Lemma final_response_without_choice_witness :
  pc (main no_final_choice_world 7) = AtFollowUp /\
  main no_final_choice_world (7 + 3) =
    {| pc := Halted 1;
       messages := messages (main no_final_choice_world 7);
       trace := trace (main no_final_choice_world 7) ++
         [Requested (follow_up_request (messages (main no_final_choice_world 7)));
          Printed (Text (newline ++ "Final Agent Response:")%string);
          Printed (ErrorReport IndexError)] |}.
Proof.
  assert (Hpc : pc (main no_final_choice_world 7) = AtFollowUp)
    by (vm_compute; reflexivity).
  split; [exact Hpc|].
  exact (final_response_without_choice_ends_the_run no_final_choice_world 7
           {| choices := [] |} Hpc eq_refl eq_refl 3 (le_n 3)).
Defined.

(** X6 on the run whose credential is the empty string. *)
Lemma empty_credential_witness :
  getenv empty_key_world api_key_name = Some ""%string /\
  pc (main empty_key_world 1) = Halted 1 /\
  UseCase1.pc (UseCase1.main empty_key_world 1) = UseCase1.Halted 1.
Proof.
  pose proof (empty_credential_counts_as_missing empty_key_world eq_refl)
    as (H2 & H1).
  split; [reflexivity|]. split.
  - rewrite (H2 1 (le_n 1)). reflexivity.
  - rewrite (H1 1 (le_n 1)). reflexivity.
Defined.

(** X7 on a run of use case 1 that gets its answer. *)
Lemma use_case_1_answer_witness :
  create plain_world 0 UseCase1.request =
    Returned {| choices := [says "I cannot tell the time."] |} /\
  UseCase1.pc (UseCase1.main plain_world 5) = UseCase1.Halted 0 /\
  printed (UseCase1.trace (UseCase1.main plain_world 5)) =
    [Text "Starting Use Case 1: Simple Agent Example";
     Text (newline ++ "Agent Response:")%string;
     Text "I cannot tell the time.";
     Text (newline ++ "Use Case 1 completed successfully.")%string].
Proof.
  pose proof (use_case_1_prints_the_answer plain_world
                {| choices := [says "I cannot tell the time."] |}
                (says "I cannot tell the time.") []
                eq_refl eq_refl eq_refl eq_refl 5 (le_n 5)) as H.
  split; [reflexivity|]. rewrite H. split; reflexivity.
Defined.

(** X8 on a run of use case 1 whose service cannot be reached. *)
Lemma use_case_1_failed_call_witness :
  create unreachable_world 0 UseCase1.request =
    Raised (LibraryError "Connection error.") /\
  UseCase1.main unreachable_world 4 =
    {| UseCase1.pc := UseCase1.Halted 1;
       UseCase1.trace :=
         [Printed (Text "Starting Use Case 1: Simple Agent Example");
          Requested UseCase1.request;
          Printed (ErrorReport (LibraryError "Connection error."))] |}.
Proof.
  split; [reflexivity|].
  exact (use_case_1_reports_a_failed_call unreachable_world _
           eq_refl eq_refl eq_refl 4 (le_n 4)).
Defined.

(** X14 on the request for the weather in Tokyo. *)
Lemma catalog_names_witness :
  json_loads tokyo_world (arguments tokyo_call) =
    Some (JObj [("location"%string, JStr "Tokyo")]) /\
  In (function_name tokyo_call) (map tool_name tools) /\
  fst (dispatch tokyo_world 0 tokyo_call) = [Invoked "get_weather" [JStr "Tokyo"]].
Proof.
  assert (Hv : json_loads tokyo_world (arguments tokyo_call) =
               Some (JObj [("location"%string, JStr "Tokyo")]))
    by (vm_compute; reflexivity).
  split; [exact Hv|].
  destruct (catalog_names_are_the_dispatched_names tokyo_world 0 tokyo_call _ Hv)
    as (_ & [(Hin & _)|(Hout & _)]).
  - split; [exact Hin|]. vm_compute. reflexivity.
  - exfalso. apply Hout. cbn. auto.
Defined.
